(** * The fan-out search routine of [main.py]

    A shallow embedding of [list_and_search_all_stores]: the Python
    function that lists the data stores of a project, builds a search
    tool for each of them and joins the per-store outcomes.

    The two external services (the directory client and the search-tool
    constructor) are a record of responses, [Env].  What the function
    does to the outside world (the lines it prints and the external
    calls it makes) is threaded through a small state-and-exception
    monad, so that [try ... except Exception] is a combinator of the
    model and a propagated exception is a possible outcome of a run. *)

From Stdlib Require Import String Ascii List Arith Lia Bool DecimalString.
Import ListNotations.
Local Open Scope string_scope.
Local Open Scope list_scope.

(** ** Python values and exceptions *)

Module Py.

(** An instance of [Exception]; [exc_str] is what [str(e)] and the
    f-string field [{e}] render.  The services signal failure with
    subclasses of [Exception]; interpreter signals deriving only from
    [BaseException] are raised by no call of this function. *)
Record Exception : Type := mkException {
  exc_class : string;
  exc_str : string
}.

(** The result of evaluating an expression or a call. *)
Inductive outcome (A : Type) : Type :=
| Returned (a : A)
| Raised (e : Exception).
Arguments Returned {A} a.
Arguments Raised {A} e.

(** External calls, in the order the function makes them. *)
Inductive call : Type :=
| DataStoreServiceClient_call
| list_data_stores_call (parent : string)
| VertexAiSearchTool_call (data_store_id : string).

(** What a run leaves behind: the printed lines and the calls made. *)
Record world : Type := mkWorld {
  stdout : list string;
  calls : list call
}.

Definition M (A : Type) : Type := world -> outcome A * world.

Definition ret {A} (a : A) : M A := fun w => (Returned a, w).

Definition raise {A} (e : Exception) : M A := fun w => (Raised e, w).

Definition bind {A B} (m : M A) (k : A -> M B) : M B :=
  fun w => match m w with
           | (Returned a, w') => k a w'
           | (Raised e, w') => (Raised e, w')
           end.

(** [try: body / except Exception as e: handler e]. *)
Definition try_except {A} (body : M A) (handler : Exception -> M A) : M A :=
  fun w => match body w with
           | (Returned a, w') => (Returned a, w')
           | (Raised e, w') => handler e w'
           end.

Definition print (line : string) : M unit :=
  fun w => (Returned tt, mkWorld (stdout w ++ [line]) (calls w)).

Definition record_call (c : call) : M unit :=
  fun w => (Returned tt, mkWorld (stdout w) (calls w ++ [c])).

(** Lifting the response of a service into the monad. *)
Definition respond {A} (r : outcome A) : M A := fun w => (r, w).

End Py.

Import Py.

Declare Scope py_scope.
Delimit Scope py_scope with py.
Notation "x <- m ;; k" := (bind m (fun x => k))
  (at level 61, m at next level, right associativity) : py_scope.
Notation "m ;;; k" := (bind m (fun _ => k))
  (at level 61, right associativity) : py_scope.
Local Open Scope py_scope.

(** ** String primitives *)

Definition newline : ascii := ascii_of_nat 10.
Definition slash : ascii := "/"%char.

(** The separator of [str.join] at line 50: two line feeds. *)
Definition blank_line : string := String newline (String newline "").

(** [str(n)] for a length. *)
Definition str_of_nat (n : nat) : string :=
  NilZero.string_of_uint (Nat.to_uint n).

(** [sep.join(parts)]. *)
Definition str_join (sep : string) (parts : list string) : string :=
  String.concat sep parts.

(** The scan of [s.split(sep)] for a non-empty [sep]: left to right, the
    leftmost match cuts; [skip] counts the characters of a matched
    separator still to pass over, [cur] is the segment being read. *)
Fixpoint split_scan (sep s : string) (skip : nat) (cur : string) : list string :=
  match s with
  | EmptyString => [cur]
  | String c s' =>
      match skip with
      | S k => split_scan sep s' k cur
      | O => if String.prefix sep s
             then cur :: split_scan sep s' (String.length sep - 1) ""
             else split_scan sep s' 0 (cur ++ String c "")
      end
  end.

(** [s.split(sep)]: [ValueError] on an empty separator. *)
Definition str_split (s sep : string) : M (list string) :=
  match sep with
  | EmptyString => raise (mkException "ValueError" "empty separator")
  | _ => ret (split_scan sep s 0 "")
  end.

(** [l[-1]]: [IndexError] on an empty list. *)
Definition index_last (l : list string) : M string :=
  match rev l with
  | [] => raise (mkException "IndexError" "list index out of range")
  | x :: _ => ret x
  end.

(** ** The external services *)

(** The pager that [list_data_stores] returns: it yields data stores one
    at a time and may fail while fetching a later page.  Only the [name]
    attribute of a data store is read. *)
Inductive pager : Type :=
| PagerEnd
| PagerYield (name : string) (rest : pager)
| PagerFail (e : Exception).

(** The object [VertexAiSearchTool(...)] builds; the function never
    calls it. *)
Record search_tool : Type := mkSearchTool {
  tool_state : string
}.

Record Env : Type := mkEnv {
  DataStoreServiceClient : outcome unit;
  list_data_stores : string -> outcome pager;
  VertexAiSearchTool : string -> outcome search_tool
}.

(** ** [list_and_search_all_stores], lines 20-50 *)

Section Routine.

Variable env : Env.

(** Line 31. *)
Definition parent_of (project_id location : string) : string :=
  "projects/" ++ project_id ++ "/locations/" ++ location
    ++ "/collections/default_collection".

(** Line 33, the element expression [s.name.split('/')[-1]]. *)
Definition store_id_of (name : string) : M string :=
  segs <- str_split name (String slash "") ;;
  index_last segs.

(** Line 33, the comprehension over the pager. *)
Fixpoint collect_ids (response : pager) : M (list string) :=
  match response with
  | PagerEnd => ret []
  | PagerYield name rest =>
      id <- store_id_of name ;;
      ids <- collect_ids rest ;;
      ret (id :: ids)
  | PagerFail e => raise e
  end.

(** Lines 30-34, the body of the first [try]. *)
Definition enumerate (project_id location : string) : M (list string) :=
  record_call DataStoreServiceClient_call ;;;
  _ <- respond (DataStoreServiceClient env) ;;
  let parent := parent_of project_id location in
  record_call (list_data_stores_call parent) ;;;
  response <- respond (list_data_stores env parent) ;;
  datastore_ids <- collect_ids response ;;
  print ("--- Found " ++ str_of_nat (List.length datastore_ids)
           ++ " data stores to search. ---") ;;;
  ret datastore_ids.

(** Line 36. *)
Definition enumeration_error (e : Exception) : string :=
  "Error: Could not list data stores. " ++ exc_str e.

(** Line 45. *)
Definition result_snippet (store_id query : string) : string :=
  "Retrieved document from " ++ store_id ++ " related to '" ++ query ++ "'.".

(** Line 48. *)
Definition search_error (store_id : string) (e : Exception) : string :=
  "Error searching in " ++ store_id ++ ": " ++ exc_str e.

(** Lines 40-48, one turn of the loop on the list [all_results]. *)
Definition search_store (query store_id : string) (all_results : list string)
  : M (list string) :=
  print ("--- Searching in data store: " ++ store_id ++ " ---") ;;;
  try_except
    (record_call (VertexAiSearchTool_call store_id) ;;;
     _ <- respond (VertexAiSearchTool env store_id) ;;
     ret (all_results ++ [result_snippet store_id query]))
    (fun e => ret (all_results ++ [search_error store_id e])).

(** Lines 39-48, the [for] loop. *)
Fixpoint search_loop (query : string) (datastore_ids : list string)
  (all_results : list string) : M (list string) :=
  match datastore_ids with
  | [] => ret all_results
  | store_id :: rest =>
      all_results' <- search_store query store_id all_results ;;
      search_loop query rest all_results'
  end.

(** The function.  The first [try] either hands the identifiers on or
    returns from the function with the error string. *)
Definition list_and_search_all_stores (project_id query location : string)
  : M string :=
  print ("--- Starting search across all data stores in project "
           ++ project_id ++ " ---") ;;;
  step1 <- try_except
             (ids <- enumerate project_id location ;; ret (inl ids))
             (fun e => ret (inr (enumeration_error e))) ;;
  match step1 with
  | inr message => ret message
  | inl datastore_ids =>
      all_results <- search_loop query datastore_ids [] ;;
      ret (str_join blank_line all_results)
  end.

End Routine.

(** The default of the parameter [location]. *)
Definition default_location : string := "global".

Definition empty_world : world := mkWorld [] [].

(** ** Vocabulary of the specification *)

(** A pager that yields the data stores named [names] and then ends. *)
Definition pager_of_names (names : list string) : pager :=
  fold_right PagerYield PagerEnd names.

(** A pager that yields [names] and then fails with [e]. *)
Definition failing_pager (names : list string) (e : Exception) : pager :=
  fold_right PagerYield (PagerFail e) names.

(** Enumeration fails with [e]: the client cannot be built, the listing
    request is refused, or a later page cannot be fetched. *)
Inductive enumeration_fails (env : Env) (project_id location : string)
  (e : Exception) : Prop :=
| fails_at_client :
    DataStoreServiceClient env = Raised e ->
    enumeration_fails env project_id location e
| fails_at_request :
    DataStoreServiceClient env = Returned tt ->
    list_data_stores env (parent_of project_id location) = Raised e ->
    enumeration_fails env project_id location e
| fails_at_page (yielded : list string) :
    DataStoreServiceClient env = Returned tt ->
    list_data_stores env (parent_of project_id location)
      = Returned (failing_pager yielded e) ->
    enumeration_fails env project_id location e.

(** Enumeration succeeds and the directory service lists [names]. *)
Definition enumeration_lists (env : Env) (project_id location : string)
  (names : list string) : Prop :=
  DataStoreServiceClient env = Returned tt /\
  list_data_stores env (parent_of project_id location)
    = Returned (pager_of_names names).

(** What the first [try] body evaluates to; it reads nothing from the
    world it starts in (lemma [enumerate_world_independent]). *)
Definition enumeration_outcome (env : Env) (project_id location : string)
  : outcome (list string) :=
  fst (enumerate env project_id location empty_world).

(** The SearchResult of one index: a snippet or an inline error. *)
Definition per_index_outcome (env : Env) (query store_id : string) : string :=
  match VertexAiSearchTool env store_id with
  | Returned _ => result_snippet store_id query
  | Raised e => search_error store_id e
  end.

(** The AggregatedReport as the specification words it: the outcomes in
    order, a blank line put between each outcome and the next. *)
Definition AggregatedReport (outcomes : list string) : string :=
  match outcomes with
  | [] => ""
  | first :: others =>
      fold_left (fun report o => (report ++ blank_line ++ o)%string) others first
  end.

Fixpoint contains_char (c : ascii) (s : string) : bool :=
  match s with
  | EmptyString => false
  | String a s' => Ascii.eqb a c || contains_char c s'
  end.

(** [id] is the final '/'-separated segment of [name]. *)
Definition is_final_segment (name id : string) : Prop :=
  contains_char slash id = false /\
  (name = id \/ exists before, name = (before ++ String slash id)%string).

(** [s] occurs inside [text]. *)
Definition mentions (text s : string) : Prop :=
  exists before after, text = (before ++ s ++ after)%string.

(** [p], [q] and [r] occur in [text], disjoint and in that order. *)
Definition in_that_order (text p q r : string) : Prop :=
  exists s0 s1 s2 s3,
    text = (s0 ++ p ++ s1 ++ q ++ s2 ++ r ++ s3)%string.

(** [s] occurs in [text] at two places that do not overlap. *)
Definition occurs_twice (text s : string) : Prop :=
  exists s0 s1 s2, text = (s0 ++ s ++ s1 ++ s ++ s2)%string.

(** The non-empty segments of [text.split("\n\n")]. *)
Definition blank_line_segments (text : string) : list string :=
  filter (fun seg => negb (seg =? "")) (split_scan blank_line text 0 "").

(** No two consecutive line feeds in [s]. *)
Fixpoint no_blank_line (s : string) : bool :=
  match s with
  | EmptyString => true
  | String c s' =>
      negb (Ascii.eqb c newline &&
            match s' with
            | String d _ => Ascii.eqb d newline
            | EmptyString => false
            end)
      && no_blank_line s'
  end.

(** [x] has no blank line and does not end in a line feed: a blank line
    put after [x] is the first one met. *)
Definition closed_segment (x : string) : Prop :=
  no_blank_line (x ++ String newline "") = true.

(** The part of [s] after its last slash, [cur] being what was read
    since the last slash seen. *)
Fixpoint after_last_slash (s cur : string) : string :=
  match s with
  | EmptyString => cur
  | String c s' =>
      if Ascii.eqb c slash then after_last_slash s' ""
      else after_last_slash s' (cur ++ String c "")
  end.

Definition last_segment (name : string) : string := after_last_slash name "".

(** The lines the loop prints and the calls it makes. *)
Definition searching_line (store_id : string) : string :=
  "--- Searching in data store: " ++ store_id ++ " ---".

Definition starting_line (project_id : string) : string :=
  "--- Starting search across all data stores in project "
    ++ project_id ++ " ---".

Definition found_line (n : nat) : string :=
  "--- Found " ++ str_of_nat n ++ " data stores to search. ---".

(** No search tool was built between [w] and [w']. *)
Definition no_search_between (w w' : world) : Prop :=
  exists made, calls w' = calls w ++ made /\
    forall id, ~ In (VertexAiSearchTool_call id) made.

(** The world once the client is built, and once the listing request
    is sent. *)
Definition after_client (w : world) : world :=
  mkWorld (stdout w) (calls w ++ [DataStoreServiceClient_call]).

Definition after_request (parent : string) (w : world) : world :=
  mkWorld (stdout w)
          ((calls w ++ [DataStoreServiceClient_call])
             ++ [list_data_stores_call parent]).

(** Two calls in a row, on the same arguments and the same services. *)
Definition call_twice (env : Env) (project_id query location : string)
  : M (string * string) :=
  first <- list_and_search_all_stores env project_id query location ;;
  second <- list_and_search_all_stores env project_id query location ;;
  ret (first, second).

(** The world after a run that enumerated [ids]. *)
Definition world_after_search (project_id location : string)
  (ids : list string) (w : world) : world :=
  mkWorld (stdout w ++ starting_line project_id
             :: found_line (List.length ids) :: map searching_line ids)
          (calls w ++ DataStoreServiceClient_call
             :: list_data_stores_call (parent_of project_id location)
             :: map VertexAiSearchTool_call ids).

(** ** Concrete services used to exercise the statements *)

Definition PermissionDenied : Exception :=
  mkException "PermissionDenied" "403 permission denied".

Definition BadStore : Exception :=
  mkException "ValueError" "bad store".

Definition the_tool (store_id : string) : search_tool := mkSearchTool store_id.

(** Three stores [A], [B], [C]; the tool for [B] cannot be built. *)
Definition env_ABC : Env :=
  mkEnv (Returned tt)
        (fun _ => Returned (pager_of_names
           ["projects/p/locations/global/collections/default_collection/dataStores/A";
            "projects/p/locations/global/collections/default_collection/dataStores/B";
            "projects/p/locations/global/collections/default_collection/dataStores/C"]))
        (fun id => if id =? "B" then Raised BadStore else Returned (the_tool id)).

(** The same directory, every tool built, each with other contents. *)
Definition env_ABC_ok : Env :=
  mkEnv (Returned tt) (list_data_stores env_ABC)
        (fun id => Returned (mkSearchTool "ready")).

(** A project without data stores. *)
Definition env_empty : Env :=
  mkEnv (Returned tt) (fun _ => Returned PagerEnd)
        (fun id => Returned (the_tool id)).

(** The second page of the listing cannot be fetched. *)
Definition env_page_fails : Env :=
  mkEnv (Returned tt)
        (fun _ => Returned (failing_pager ["projects/p/dataStores/A"] PermissionDenied))
        (fun id => Returned (the_tool id)).

(** Two data stores of different collections with the same last segment. *)
Definition env_twins : Env :=
  mkEnv (Returned tt)
        (fun _ => Returned (pager_of_names
           ["projects/p/collections/c1/dataStores/docs";
            "projects/p/collections/c2/dataStores/docs"]))
        (fun id => Returned (the_tool id)).

(** One data store. *)
Definition env_single : Env :=
  mkEnv (Returned tt)
        (fun _ => Returned (pager_of_names ["projects/p/dataStores/s"]))
        (fun id => Returned (the_tool id)).

(** The directory and the tools of [env_single], and other answers to
    every request that a call for project [p] does not make. *)
Definition env_single_elsewhere : Env :=
  mkEnv (Returned tt)
        (fun parent => if parent =? parent_of "p" "global"
                       then Returned (pager_of_names ["projects/p/dataStores/s"])
                       else Raised PermissionDenied)
        (fun id => if id =? "s" then Returned (the_tool id)
                   else Raised BadStore).

(** A query of two paragraphs. *)
Definition two_paragraphs : string := "a" ++ blank_line ++ "b".

(** A directory whose only resource name ends in a slash. *)
Definition env_trailing_slash : Env :=
  mkEnv (Returned tt)
        (fun _ => Returned (pager_of_names ["projects/p/dataStores/"]))
        (fun id => Returned (the_tool id)).

(** ** The script, lines 92-117 *)

(** An event of the runner, as the script reads it: the answer of
    [is_final_response()] and the [text] of each of its [parts]. *)
Record event : Type := mkEvent {
  is_final_response : bool;
  parts : list string
}.

(** What [runner.run] returns: events one at a time, with a possible
    failure while the next one is produced. *)
Inductive event_stream : Type :=
| EventsEnd
| EventsYield (ev : event) (rest : event_stream)
| EventsFail (e : Exception).

(** The process environment and the agent runtime the script talks to:
    [os.environ.get("GOOGLE_CLOUD_PROJECT")], the constructor of
    [InMemoryRunner], and [runner.run] for a project and a message. *)
Record Host : Type := mkHost {
  GOOGLE_CLOUD_PROJECT : option string;
  InMemoryRunner : outcome unit;
  runner_run : string -> string -> outcome event_stream
}.

(** Line 99. *)
Definition initial_message : string :=
  "Tell me about finance lawyer John Smith and his relation to the Capital Markets Reform Act.".

(** Line 95. *)
Definition please_set_line : string :=
  "Please set the GOOGLE_CLOUD_PROJECT environment variable.".

(** Line 116: a line feed, then the title. *)
Definition final_report_line : string :=
  String newline "Final Analysis Report:".

(** [s * n]. *)
Fixpoint str_repeat (s : string) (n : nat) : string :=
  match n with
  | O => ""
  | S k => s ++ str_repeat s k
  end.

(** [l[0]]: [IndexError] on an empty list. *)
Definition index_first (l : list string) : M string :=
  match l with
  | [] => raise (mkException "IndexError" "list index out of range")
  | x :: _ => ret x
  end.

(** Lines 115-117, the body of the loop over the events. *)
Definition print_event (ev : event) : M unit :=
  if is_final_response ev
  then print final_report_line ;;;
       text <- index_first (parts ev) ;;
       print text
  else ret tt.

(** Lines 114-117. *)
Fixpoint print_final_responses (events : event_stream) : M unit :=
  match events with
  | EventsEnd => ret tt
  | EventsYield ev rest =>
      print_event ev ;;;
      print_final_responses rest
  | EventsFail e => raise e
  end.

(** Lines 93-117; [not project] holds of [None] and of the empty string. *)
Definition main (host : Host) : M unit :=
  match GOOGLE_CLOUD_PROJECT host with
  | None | Some EmptyString => print please_set_line
  | Some project =>
      _ <- respond (InMemoryRunner host) ;;
      print ("Starting agent workflow for initial query: '"
               ++ initial_message ++ "'") ;;;
      print (str_repeat "-" 30) ;;;
      events <- respond (runner_run host project initial_message) ;;
      print (str_repeat "-" 30) ;;;
      print "--- Agent Workflow Complete ---" ;;;
      print_final_responses events
  end.

(** The lines the script prints around the run. *)
Definition workflow_start_lines : list string :=
  [("Starting agent workflow for initial query: '" ++ initial_message ++ "'")%string;
   str_repeat "-" 30].

Definition workflow_complete_lines : list string :=
  [str_repeat "-" 30; "--- Agent Workflow Complete ---"].

(** The project variable is unset or empty. *)
Definition project_missing (host : Host) : Prop :=
  GOOGLE_CLOUD_PROJECT host = None \/ GOOGLE_CLOUD_PROJECT host = Some "".

(** The loop body can print [ev]: a final response has a first part. *)
Definition printable (ev : event) : bool :=
  negb (is_final_response ev) ||
  match parts ev with [] => false | _ :: _ => true end.

(** What the loop body prints for [ev]. *)
Definition report_lines (ev : event) : list string :=
  if is_final_response ev
  then final_report_line :: firstn 1 (parts ev)
  else [].

(** The stream that yields [evs] and goes on as [rest]. *)
Definition events_then (evs : list event) (rest : event_stream) : event_stream :=
  fold_right EventsYield rest evs.

(** The stream ends normally and each of its events is printable. *)
Fixpoint stream_printable (events : event_stream) : bool :=
  match events with
  | EventsEnd => true
  | EventsYield ev rest => printable ev && stream_printable rest
  | EventsFail _ => false
  end.

(** The events a stream yields before it ends or fails. *)
Fixpoint events_of (events : event_stream) : list event :=
  match events with
  | EventsYield ev rest => ev :: events_of rest
  | _ => []
  end.

(** Hosts used to exercise the statements. *)
Definition draft : event := mkEvent false ["thinking"].
Definition answer : event := mkEvent true ["the report"; "an appendix"].
Definition hollow : event := mkEvent true [].

Definition host_unset : Host :=
  mkHost None (Raised PermissionDenied) (fun _ _ => Raised PermissionDenied).

Definition host_ok : Host :=
  mkHost (Some "p") (Returned tt)
         (fun _ _ => Returned (events_then [draft; answer] EventsEnd)).

Definition host_hollow : Host :=
  mkHost (Some "p") (Returned tt)
         (fun _ _ => Returned (events_then [draft; answer]
                                 (EventsYield hollow (EventsYield answer EventsEnd)))).

(** ** The function at its boundary

    The same lines 20-50, with everything that can leave the function:
    what is raised is told apart by class, since [except Exception]
    catches the instances of [Exception] and lets [KeyboardInterrupt],
    [SystemExit] and [GeneratorExit] through; [str(e)] in a handler is a
    call that can raise; and [print] can fail to write. *)

Module Strict.

(** What is raised: an instance of [Exception], with what [str(e)]
    evaluates to, or a [BaseException] that is not one. *)
Inductive thrown : Type :=
| ExceptionInstance (class : string) (str : rendering)
| BaseExceptionOnly (class : string)
with rendering : Type :=
| Renders (text : string)
| StrRaises (t : thrown).

Inductive result (A : Type) : Type :=
| Value (a : A)
| Throw (t : thrown).
Arguments Value {A} a.
Arguments Throw {A} t.

Definition M (A : Type) : Type := world -> result A * world.

Definition ret {A} (a : A) : M A := fun w => (Value a, w).

Definition throw {A} (t : thrown) : M A := fun w => (Throw t, w).

Definition bind {A B} (m : M A) (k : A -> M B) : M B :=
  fun w => match m w with
           | (Value a, w') => k a w'
           | (Throw t, w') => (Throw t, w')
           end.

(** [try: body / except Exception as e: handler e]: an instance of
    [Exception] goes to the handler, anything else goes on. *)
Definition try_except_Exception {A} (body : M A)
  (handler : string -> rendering -> M A) : M A :=
  fun w => match body w with
           | (Value a, w') => (Value a, w')
           | (Throw (ExceptionInstance class str), w') => handler class str w'
           | (Throw (BaseExceptionOnly class), w') =>
               (Throw (BaseExceptionOnly class), w')
           end.

(** The field [{e}] of an f-string. *)
Definition format_exception (str : rendering) : M string :=
  match str with
  | Renders text => ret text
  | StrRaises t => throw t
  end.

Definition record_call (c : call) : M unit :=
  fun w => (Value tt, mkWorld (stdout w) (calls w ++ [c])).

Definition respond {A} (r : result A) : M A := fun w => (r, w).

(** An expression of the first model: what it raises there is an
    instance of [Exception] that renders. *)
Definition of_py {A} (m : Py.M A) : M A :=
  fun w => match m w with
           | (Returned a, w') => (Value a, w')
           | (Raised e, w') =>
               (Throw (ExceptionInstance (exc_class e) (Renders (exc_str e))),
                w')
           end.

Inductive pager : Type :=
| PagerEnd
| PagerYield (name : string) (rest : pager)
| PagerFail (t : thrown).

(** The services, and [sys.stdout]: [write line] is [None] when the line
    is written and otherwise what [print(line)] raises. *)
Record Runtime : Type := mkRuntime {
  DataStoreServiceClient : result unit;
  list_data_stores : string -> result pager;
  VertexAiSearchTool : string -> result search_tool;
  write : string -> option thrown
}.

Section Routine.

Variable rt : Runtime.

Definition print (line : string) : M unit :=
  fun w => match write rt line with
           | None => (Value tt, mkWorld (stdout w ++ [line]) (calls w))
           | Some t => (Throw t, w)
           end.

(** Line 33. *)
Fixpoint collect_ids (response : pager) : M (list string) :=
  match response with
  | PagerEnd => ret []
  | PagerYield name rest =>
      bind (of_py (store_id_of name)) (fun id =>
      bind (collect_ids rest) (fun ids =>
      ret (id :: ids)))
  | PagerFail t => throw t
  end.

(** Lines 30-34. *)
Definition enumerate (project_id location : string) : M (list string) :=
  bind (record_call DataStoreServiceClient_call) (fun _ =>
  bind (respond (DataStoreServiceClient rt)) (fun _ =>
  let parent := parent_of project_id location in
  bind (record_call (list_data_stores_call parent)) (fun _ =>
  bind (respond (list_data_stores rt parent)) (fun response =>
  bind (collect_ids response) (fun datastore_ids =>
  bind (print ("--- Found " ++ str_of_nat (List.length datastore_ids)
                 ++ " data stores to search. ---")) (fun _ =>
  ret datastore_ids)))))).

(** Lines 40-48. *)
Definition search_store (query store_id : string) (all_results : list string)
  : M (list string) :=
  bind (print ("--- Searching in data store: " ++ store_id ++ " ---")) (fun _ =>
  try_except_Exception
    (bind (record_call (VertexAiSearchTool_call store_id)) (fun _ =>
     bind (respond (VertexAiSearchTool rt store_id)) (fun _ =>
     ret (all_results
            ++ [("Retrieved document from " ++ store_id ++ " related to '"
                   ++ query ++ "'.")%string]))))
    (fun _ e =>
     bind (format_exception e) (fun text =>
     ret (all_results
            ++ [("Error searching in " ++ store_id ++ ": " ++ text)%string])))).

(** Lines 39-48. *)
Fixpoint search_loop (query : string) (datastore_ids : list string)
  (all_results : list string) : M (list string) :=
  match datastore_ids with
  | [] => ret all_results
  | store_id :: rest =>
      bind (search_store query store_id all_results) (fun all_results' =>
      search_loop query rest all_results')
  end.

(** Lines 25-50. *)
Definition list_and_search_all_stores (project_id query location : string)
  : M string :=
  bind (print ("--- Starting search across all data stores in project "
                 ++ project_id ++ " ---")) (fun _ =>
  bind (try_except_Exception
          (bind (enumerate project_id location) (fun ids => ret (inl ids)))
          (fun _ e =>
           bind (format_exception e) (fun text =>
           ret (inr ("Error: Could not list data stores. " ++ text)%string))))
       (fun step1 =>
  match step1 with
  | inr message => ret message
  | inl datastore_ids =>
      bind (search_loop query datastore_ids []) (fun all_results =>
      ret (str_join blank_line all_results))
  end)).

(** What the first [try] body evaluates to. *)
Definition enumeration_outcome (project_id location : string)
  : result (list string) :=
  fst (enumerate project_id location empty_world).

End Routine.

(** An instance of [Exception] whose [str] returns. *)
Definition reportable (t : thrown) : bool :=
  match t with
  | ExceptionInstance _ (Renders _) => true
  | _ => false
  end.

Definition reportable_failure {A} (r : result A) : bool :=
  match r with
  | Value _ => true
  | Throw t => reportable t
  end.

Fixpoint reportable_pager (p : pager) : bool :=
  match p with
  | PagerEnd => true
  | PagerYield _ rest => reportable_pager rest
  | PagerFail t => reportable t
  end.

(** Every line is written, and whatever the client, the listing under
    the project's parent or a tool raises is an instance of [Exception]
    whose [str] returns. *)
Definition failures_are_exceptions (rt : Runtime)
  (project_id location : string) : Prop :=
  (forall line, write rt line = None) /\
  reportable_failure (DataStoreServiceClient rt) = true /\
  match list_data_stores rt (parent_of project_id location) with
  | Value p => reportable_pager p = true
  | Throw t => reportable t = true
  end /\
  (forall id, reportable_failure (VertexAiSearchTool rt id) = true).








End Strict.

(** The services of the first model as a runtime of the second: what
    they raise is an instance of [Exception] that renders, and every
    line is written. *)
Definition result_of_outcome {A} (r : outcome A) : Strict.result A :=
  match r with
  | Returned a => Strict.Value a
  | Raised e =>
      Strict.Throw (Strict.ExceptionInstance (exc_class e)
                      (Strict.Renders (exc_str e)))
  end.

Fixpoint strict_pager_of (p : pager) : Strict.pager :=
  match p with
  | PagerEnd => Strict.PagerEnd
  | PagerYield name rest => Strict.PagerYield name (strict_pager_of rest)
  | PagerFail e =>
      Strict.PagerFail (Strict.ExceptionInstance (exc_class e)
                          (Strict.Renders (exc_str e)))
  end.

Definition runtime_of_env (env : Env) : Strict.Runtime :=
  Strict.mkRuntime
    (result_of_outcome (DataStoreServiceClient env))
    (fun parent => match list_data_stores env parent with
                   | Returned p => Strict.Value (strict_pager_of p)
                   | Raised e => result_of_outcome (Raised e)
                   end)
    (fun id => result_of_outcome (VertexAiSearchTool env id))
    (fun _ => None).

(** ** Strings *)

Lemma append_assoc (a b c : string) : ((a ++ b) ++ c = a ++ (b ++ c))%string.
Proof. induction a as [|x a IH]; simpl; [reflexivity | now rewrite IH]. Qed.

Lemma append_empty_r (a : string) : (a ++ "" = a)%string.
Proof. induction a as [|x a IH]; simpl; [reflexivity | now rewrite IH]. Qed.

Lemma length_append (a b : string) :
  String.length (a ++ b) = String.length a + String.length b.
Proof. induction a as [|x a IH]; simpl; [reflexivity | now rewrite IH]. Qed.

Lemma contains_char_append (c : ascii) (a b : string) :
  contains_char c (a ++ b) = contains_char c a || contains_char c b.
Proof.
  induction a as [|x a IH]; simpl; [reflexivity |].
  now rewrite IH, orb_assoc.
Qed.

Lemma prefix_empty (s : string) : String.prefix "" s = true.
Proof. now destruct s. Qed.

Lemma prefix_cons (a b : ascii) (s1 s2 : string) :
  String.prefix (String a s1) (String b s2) =
  if ascii_dec a b then String.prefix s1 s2 else false.
Proof. reflexivity. Qed.

(** ** [split] and [[-1]] on a resource name *)

Lemma split_scan_not_nil (sep s : string) (skip : nat) (cur : string) :
  split_scan sep s skip cur <> [].
Proof.
  revert skip cur; induction s as [|c s IH]; intros skip cur; simpl.
  - discriminate.
  - destruct skip as [|k]; [|apply IH].
    destruct (match sep with "" => _ | String _ _ => _ end).
    + discriminate.
    + apply IH.
Qed.

Lemma split_scan_slash_step (c : ascii) (s cur : string) :
  split_scan (String slash "") (String c s) 0 cur =
  if Ascii.eqb c slash
  then cur :: split_scan (String slash "") s 0 ""
  else split_scan (String slash "") s 0 (cur ++ String c "").
Proof.
  cbn [split_scan String.length Nat.sub]. rewrite prefix_cons.
  destruct (ascii_dec slash c) as [E|N].
  - subst c. now rewrite Ascii.eqb_refl, prefix_empty.
  - destruct (Ascii.eqb_spec c slash) as [E|_]; [now subst|reflexivity].
Qed.

Lemma last_split_scan_slash (s cur : string) :
  last (split_scan (String slash "") s 0 cur) "" = after_last_slash s cur.
Proof.
  revert cur; induction s as [|c s IH]; intros cur.
  - reflexivity.
  - rewrite split_scan_slash_step. cbn [after_last_slash].
    destruct (Ascii.eqb c slash).
    + rewrite <- IH.
      destruct (split_scan (String slash "") s 0 "") eqn:E; [|reflexivity].
      now apply split_scan_not_nil in E.
    + apply IH.
Qed.

Lemma index_last_run (l : list string) (w : world) :
  l <> [] -> index_last l w = (Returned (last l ""), w).
Proof.
  intros Hl. destruct (exists_last Hl) as [l' [x ->]].
  unfold index_last. rewrite rev_app_distr, last_last. reflexivity.
Qed.

Lemma store_id_of_run (name : string) (w : world) :
  store_id_of name w = (Returned (last_segment name), w).
Proof.
  unfold store_id_of, bind, str_split, ret.
  rewrite index_last_run by apply split_scan_not_nil.
  now rewrite last_split_scan_slash.
Qed.

(** The segment after the last slash, characterised without the scan. *)
Lemma after_last_slash_spec (s cur : string) :
  contains_char slash cur = false ->
  contains_char slash (after_last_slash s cur) = false /\
  ((cur ++ s)%string = after_last_slash s cur \/
   exists before,
     (cur ++ s)%string = (before ++ String slash (after_last_slash s cur))%string).
Proof.
  revert cur; induction s as [|c s IH]; intros cur Hcur; cbn [after_last_slash].
  - split; [assumption|]. left. apply append_empty_r.
  - destruct (Ascii.eqb_spec c slash) as [->|Hc].
    + destruct (IH "" eq_refl) as [Hno [Heq|[b Hb]]]; split; try assumption; right.
      * exists cur. simpl in Heq. now rewrite <- Heq.
      * exists (cur ++ String slash b)%string. simpl in Hb.
        rewrite append_assoc. simpl. now rewrite <- Hb.
    + assert (Hcur' : contains_char slash (cur ++ String c "") = false).
      { rewrite contains_char_append, Hcur. simpl.
        destruct (Ascii.eqb_spec c slash); [contradiction|reflexivity]. }
      destruct (IH _ Hcur') as [Hno H]. split; [assumption|].
      rewrite append_assoc in H. exact H.
Qed.

Lemma last_segment_is_final (name : string) :
  is_final_segment name (last_segment name).
Proof.
  destruct (after_last_slash_spec name "" eq_refl) as [Hno H].
  split; [exact Hno | exact H].
Qed.

(** ** Running the enumeration *)

Lemma collect_ids_names (names : list string) (w : world) :
  collect_ids (pager_of_names names) w = (Returned (map last_segment names), w).
Proof.
  induction names as [|n names IH]; [reflexivity|].
  cbn [pager_of_names fold_right collect_ids map]. unfold bind at 1.
  rewrite store_id_of_run. unfold bind at 1.
  fold (pager_of_names names). now rewrite IH.
Qed.

Lemma collect_ids_failing (names : list string) (e : Exception) (w : world) :
  collect_ids (failing_pager names e) w = (Raised e, w).
Proof.
  induction names as [|n names IH]; [reflexivity|].
  cbn [failing_pager fold_right collect_ids]. unfold bind at 1.
  rewrite store_id_of_run. unfold bind at 1.
  fold (failing_pager names e). now rewrite IH.
Qed.

(** A pager either ends after some names or fails after some names. *)
Lemma pager_shape (p : pager) :
  (exists names, p = pager_of_names names) \/
  (exists names e, p = failing_pager names e).
Proof.
  induction p as [|n p [[names ->]|[names [e ->]]]|e].
  - left. now exists [].
  - left. now exists (n :: names).
  - right. now exists (n :: names), e.
  - right. now exists [], e.
Qed.

Section Runs.

Variable env : Env.
Variables project_id query location : string.

Let parent := parent_of project_id location.

Lemma enumerate_fails (e : Exception) (w : world) :
  enumeration_fails env project_id location e ->
  exists w', enumerate env project_id location w = (Raised e, w') /\
             stdout w' = stdout w /\ no_search_between w w'.
Proof.
  intros [Hc|Hc Hl|yielded Hc Hl]; unfold enumerate, bind, record_call, respond;
    cbn [stdout calls]; rewrite Hc.
  - exists (after_client w). repeat split.
    exists [DataStoreServiceClient_call]. split; [reflexivity|].
    intros id [H|[]]; discriminate.
  - rewrite Hl. exists (after_request parent w). repeat split.
    exists [DataStoreServiceClient_call; list_data_stores_call parent].
    split; [unfold after_request; cbn; now rewrite <- app_assoc|].
    intros id [H|[H|[]]]; discriminate.
  - rewrite Hl, collect_ids_failing. exists (after_request parent w). repeat split.
    exists [DataStoreServiceClient_call; list_data_stores_call parent].
    split; [unfold after_request; cbn; now rewrite <- app_assoc|].
    intros id [H|[H|[]]]; discriminate.
Qed.

Lemma enumerate_lists (names : list string) (w : world) :
  enumeration_lists env project_id location names ->
  enumerate env project_id location w =
  (Returned (map last_segment names),
   mkWorld (stdout w ++ [found_line (List.length names)])
           (calls (after_request parent w))).
Proof.
  intros [Hc Hl]. unfold enumerate, bind, record_call, respond, print, ret.
  cbn [stdout calls]. rewrite Hc, Hl, collect_ids_names.
  cbn [stdout calls]. now rewrite length_map.
Qed.

(** Enumeration fails or lists some names, never both. *)
Lemma enumeration_cases :
  (exists e, enumeration_fails env project_id location e) \/
  (exists names, enumeration_lists env project_id location names).
Proof.
  destruct (DataStoreServiceClient env) as [[]|e] eqn:Hc.
  - destruct (list_data_stores env parent) as [p|e] eqn:Hl.
    + destruct (pager_shape p) as [[names ->]|[names [e ->]]].
      * right. exists names. now split.
      * left. exists e. now apply fails_at_page with names.
    + left. exists e. now apply fails_at_request.
  - left. exists e. now apply fails_at_client.
Qed.

(** The outcome of the first [try] body does not depend on the world. *)
Lemma enumerate_world_independent (w : world) :
  fst (enumerate env project_id location w)
  = enumeration_outcome env project_id location.
Proof.
  unfold enumeration_outcome.
  destruct enumeration_cases as [[e H]|[names H]].
  - destruct (enumerate_fails e w H) as [w1 [-> _]].
    destruct (enumerate_fails e empty_world H) as [w2 [-> _]]. reflexivity.
  - now rewrite !(enumerate_lists names) by assumption.
Qed.

(** ** Running the loop *)

Lemma search_store_run (store_id : string) (all_results : list string)
  (w : world) :
  search_store env query store_id all_results w =
  (Returned (all_results ++ [per_index_outcome env query store_id]),
   mkWorld (stdout w ++ [searching_line store_id])
           (calls w ++ [VertexAiSearchTool_call store_id])).
Proof.
  unfold search_store, try_except, bind, print, record_call, respond, ret,
    per_index_outcome.
  cbn [stdout calls]. now destruct (VertexAiSearchTool env store_id).
Qed.

Lemma search_loop_run (ids : list string) (all_results : list string)
  (w : world) :
  search_loop env query ids all_results w =
  (Returned (all_results ++ map (per_index_outcome env query) ids),
   mkWorld (stdout w ++ map searching_line ids)
           (calls w ++ map VertexAiSearchTool_call ids)).
Proof.
  revert all_results w; induction ids as [|id ids IH]; intros all_results w.
  - cbn. rewrite !app_nil_r. now destruct w.
  - cbn [search_loop map]. unfold bind. rewrite search_store_run, IH.
    cbn [stdout calls]. now rewrite <- !app_assoc.
Qed.

(** ** Running the function *)

Lemma run_when_enumeration_fails (e : Exception) (w : world) :
  enumeration_fails env project_id location e ->
  exists w',
    list_and_search_all_stores env project_id query location w
      = (Returned (enumeration_error e), w') /\
    stdout w' = stdout w ++ [starting_line project_id] /\
    no_search_between w w'.
Proof.
  intros H.
  destruct (enumerate_fails e
              (mkWorld (stdout w ++ [starting_line project_id]) (calls w)) H)
    as [w' [Hrun [Hout Hcalls]]].
  exists w'. unfold list_and_search_all_stores, bind, try_except, print, ret.
  fold (starting_line project_id). rewrite Hrun. repeat split; assumption.
Qed.

Lemma run_when_enumeration_lists (names : list string) (w : world) :
  enumeration_lists env project_id location names ->
  list_and_search_all_stores env project_id query location w =
  (Returned (str_join blank_line
               (map (per_index_outcome env query) (map last_segment names))),
   mkWorld (stdout w ++ starting_line project_id
              :: found_line (List.length names)
              :: map searching_line (map last_segment names))
           (calls w ++ DataStoreServiceClient_call
              :: list_data_stores_call parent
              :: map VertexAiSearchTool_call (map last_segment names))).
Proof.
  intros H. unfold list_and_search_all_stores, bind, try_except, print, ret.
  fold (starting_line project_id).
  rewrite (enumerate_lists names) by assumption.
  rewrite search_loop_run. cbn [stdout calls app after_request].
  rewrite <- !app_assoc. reflexivity.
Qed.

End Runs.

(** ** The two ways a call ends *)

Section Ends.

Variable env : Env.
Variables project_id query location : string.

Lemma enumeration_outcome_returned (ids : list string) :
  enumeration_outcome env project_id location = Returned ids ->
  exists names, enumeration_lists env project_id location names /\
                ids = map last_segment names.
Proof.
  intros H. unfold enumeration_outcome in H.
  destruct (enumeration_cases env project_id location) as [[e F]|[names L]].
  - destruct (enumerate_fails env project_id location e empty_world F)
      as [w' [R _]].
    rewrite R in H. discriminate.
  - rewrite (enumerate_lists env project_id location names) in H by assumption.
    exists names. split; [assumption|]. cbn in H. congruence.
Qed.

Lemma enumeration_outcome_raised (e : Exception) :
  enumeration_outcome env project_id location = Raised e ->
  enumeration_fails env project_id location e.
Proof.
  intros H. unfold enumeration_outcome in H.
  destruct (enumeration_cases env project_id location) as [[e' F]|[names L]].
  - destruct (enumerate_fails env project_id location e' empty_world F)
      as [w' [R _]].
    rewrite R in H. cbn in H. now replace e with e' by congruence.
  - rewrite (enumerate_lists env project_id location names) in H by assumption.
    discriminate.
Qed.

Lemma enumeration_fails_outcome (e : Exception) :
  enumeration_fails env project_id location e ->
  enumeration_outcome env project_id location = Raised e.
Proof.
  intros F. unfold enumeration_outcome.
  destruct (enumerate_fails env project_id location e empty_world F)
    as [w' [R _]].
  now rewrite R.
Qed.

Lemma run_returned (ids : list string) (w : world) :
  enumeration_outcome env project_id location = Returned ids ->
  list_and_search_all_stores env project_id query location w =
  (Returned (str_join blank_line (map (per_index_outcome env query) ids)),
   world_after_search project_id location ids w).
Proof.
  intros H. destruct (enumeration_outcome_returned ids H) as [names [L ->]].
  rewrite (run_when_enumeration_lists env project_id query location names)
    by assumption.
  unfold world_after_search. now rewrite length_map.
Qed.

End Ends.

(** ** Joining *)

Lemma str_join_cons (sep x : string) (rest : list string) :
  rest <> [] ->
  str_join sep (x :: rest) = (x ++ sep ++ str_join sep rest)%string.
Proof. destruct rest; [contradiction|reflexivity]. Qed.

Lemma str_join_app (sep : string) (l r : list string) :
  r <> [] -> exists p, str_join sep (l ++ r) = (p ++ str_join sep r)%string.
Proof.
  intros Hr. induction l as [|y l [p IH]].
  - now exists "".
  - exists (y ++ sep ++ p)%string. cbn [app].
    rewrite str_join_cons by (destruct l; [assumption|discriminate]).
    now rewrite IH, !append_assoc.
Qed.

Lemma str_join_head (sep x : string) (rest : list string) :
  exists q, str_join sep (x :: rest) = (x ++ q)%string.
Proof.
  destruct rest as [|y rest].
  - exists "". cbn. now rewrite append_empty_r.
  - now exists (sep ++ str_join sep (y :: rest))%string.
Qed.

Lemma str_join_is_report (outcomes : list string) :
  str_join blank_line outcomes = AggregatedReport outcomes.
Proof.
  destruct outcomes as [|first others]; [reflexivity|].
  cbn [AggregatedReport].
  enough (G : forall acc first,
             (acc ++ str_join blank_line (first :: others))%string
             = fold_left (fun report o => (report ++ blank_line ++ o)%string)
                         others (acc ++ first)%string)
    by apply (G "" first).
  induction others as [|o others IH]; intros acc x.
  - reflexivity.
  - rewrite str_join_cons by discriminate. cbn [fold_left].
    rewrite <- (append_assoc (acc ++ x) blank_line o), <- IH.
    now rewrite !append_assoc.
Qed.

Lemma report_length (outcomes : list string) :
  String.length (AggregatedReport outcomes)
  = list_sum (map String.length outcomes) + 2 * (List.length outcomes - 1).
Proof.
  rewrite <- str_join_is_report.
  induction outcomes as [|x rest IH]; [reflexivity|].
  destruct rest as [|y rest].
  - cbn. lia.
  - rewrite str_join_cons by discriminate.
    rewrite !length_append, IH. change (String.length blank_line) with 2.
    cbn [map List.length]. unfold list_sum. cbn [fold_right]. lia.
Qed.

(** ** Enumeration failure *)

(** C1.  If enumerating the data stores raises (the client cannot be
    built, the listing request fails, or a later page fails after some
    stores were already yielded), the function returns the single string
    "Error: Could not list data stores. " followed by the exception's
    text, prints nothing after its first line, builds no search tool,
    and the stores yielded before the failure appear nowhere. *)
Theorem enumeration_failure_is_fatal
  (env : Env) (project_id query location : string) (e : Exception)
  (w : world) :
  enumeration_fails env project_id location e ->
  exists w',
    list_and_search_all_stores env project_id query location w
      = (Returned ("Error: Could not list data stores. " ++ exc_str e)%string,
         w') /\
    stdout w' = stdout w ++ [starting_line project_id] /\
    no_search_between w w'.
Proof.
  intros F.
  exact (run_when_enumeration_fails env project_id query location e w F).
Qed.

Lemma enumeration_failure_is_fatal_witness :
  enumeration_fails env_page_fails "p" "global" PermissionDenied /\
  exists w',
    list_and_search_all_stores env_page_fails "p" "find me" "global" empty_world
      = (Returned "Error: Could not list data stores. 403 permission denied",
         w') /\
    stdout w' = [starting_line "p"] /\
    no_search_between empty_world w'.
Proof.
  assert (F : enumeration_fails env_page_fails "p" "global" PermissionDenied)
    by (apply fails_at_page with (yielded := ["projects/p/dataStores/A"]);
        reflexivity).
  split; [exact F|].
  exact (enumeration_failure_is_fatal env_page_fails "p" "find me" "global"
           PermissionDenied empty_world F).
Defined.

(** ** The empty project *)

(** C4.  If the enumeration succeeds and yields no data store, the
    function returns the empty string, a normal return and not an
    error. *)
Theorem empty_enumeration_returns_empty_string
  (env : Env) (project_id query location : string) (w : world) :
  enumeration_outcome env project_id location = Returned [] ->
  fst (list_and_search_all_stores env project_id query location w)
  = Returned "".
Proof.
  intros H. now rewrite (run_returned env project_id query location [] w H).
Qed.

Lemma empty_enumeration_returns_empty_string_witness :
  enumeration_outcome env_empty "p" "global" = Returned [] /\
  fst (list_and_search_all_stores env_empty "p" "find me" "global" empty_world)
  = Returned "".
Proof.
  split; [reflexivity|].
  apply (empty_enumeration_returns_empty_string env_empty "p" "find me" "global"
           empty_world).
  reflexivity.
Defined.

(** ** The report *)

(** C3.  When the enumeration yields [ids], the returned string is the
    AggregatedReport of the per-index outcomes (snippet or inline error)
    of [ids] in enumeration order: each outcome followed by one blank
    line and the next outcome, and nothing more, so its length is the
    outcomes' lengths plus two line feeds per gap. *)
Theorem report_is_concatenation_of_outcomes
  (env : Env) (project_id query location : string) (ids : list string)
  (w : world) :
  enumeration_outcome env project_id location = Returned ids ->
  let outcomes := map (per_index_outcome env query) ids in
  fst (list_and_search_all_stores env project_id query location w)
    = Returned (AggregatedReport outcomes) /\
  String.length (AggregatedReport outcomes)
    = list_sum (map String.length outcomes) + 2 * (List.length ids - 1).
Proof.
  intros H outcomes. split.
  - rewrite (run_returned env project_id query location ids w H).
    cbn [fst]. now rewrite str_join_is_report.
  - rewrite report_length. unfold outcomes. now rewrite length_map.
Qed.

Lemma report_is_concatenation_of_outcomes_witness :
  enumeration_outcome env_ABC "p" "global" = Returned ["A"; "B"; "C"] /\
  fst (list_and_search_all_stores env_ABC "p" "q" "global" empty_world)
    = Returned ("Retrieved document from A related to 'q'."
                ++ blank_line ++ "Error searching in B: bad store"
                ++ blank_line ++ "Retrieved document from C related to 'q'.")%string.
Proof.
  split; [reflexivity|].
  apply (report_is_concatenation_of_outcomes env_ABC "p" "q" "global"
           ["A"; "B"; "C"] empty_world).
  reflexivity.
Defined.

(** ** The success path of one store *)

(** C7.  Whenever the tool for [store_id] is built, whatever object the
    constructor hands back, the turn of the loop appends exactly
    "Retrieved document from {store_id} related to '{query}'."; the only
    external call of the turn is the constructor, so no answer of the
    search service enters the string. *)
Theorem success_path_is_placeholder
  (env : Env) (query store_id : string) (tool : search_tool)
  (all_results : list string) (w : world) :
  VertexAiSearchTool env store_id = Returned tool ->
  search_store env query store_id all_results w =
  (Returned (all_results ++
             [("Retrieved document from " ++ store_id ++ " related to '"
                 ++ query ++ "'.")%string]),
   mkWorld (stdout w ++ [searching_line store_id])
           (calls w ++ [VertexAiSearchTool_call store_id])).
Proof.
  intros H. rewrite search_store_run. unfold per_index_outcome.
  now rewrite H.
Qed.

Lemma success_path_is_placeholder_witness :
  VertexAiSearchTool env_ABC_ok "B" = Returned (mkSearchTool "ready") /\
  fst (search_store env_ABC_ok "q" "B" [] empty_world)
  = Returned ["Retrieved document from B related to 'q'."].
Proof.
  split; [reflexivity|].
  now rewrite (success_path_is_placeholder env_ABC_ok "q" "B"
                 (mkSearchTool "ready") [] empty_world eq_refl).
Defined.

(** ** Isolation of a per-index failure *)

Lemma in_that_order_join (sep a b c : string) (l1 l2 l3 l4 : list string) :
  in_that_order (str_join sep (l1 ++ a :: l2 ++ b :: l3 ++ c :: l4)) a b c.
Proof.
  destruct (str_join_app sep l1 (a :: l2 ++ b :: l3 ++ c :: l4)) as [p1 E1];
    [discriminate|].
  destruct (str_join_app sep l2 (b :: l3 ++ c :: l4)) as [p2 E2];
    [discriminate|].
  destruct (str_join_app sep l3 (c :: l4)) as [p3 E3]; [discriminate|].
  destruct (str_join_head sep c l4) as [q E4].
  exists p1, (sep ++ p2)%string, (sep ++ p3)%string, q.
  rewrite E1.
  rewrite str_join_cons by (destruct l2; discriminate).
  rewrite E2.
  rewrite str_join_cons by (destruct l3; discriminate).
  rewrite E3, E4. now rewrite !append_assoc.
Qed.

(** C2.  Let the enumeration yield a list in which [A] comes before [B]
    and [B] before [C], the tools of [A] and [C] be built and the tool
    of [B] raise [e].  Then the call returns the join of one outcome per
    store, in enumeration order, with [A]'s snippet, the inline error of
    [B] and [C]'s snippet at their places; these three occur in the
    report in that order, the inline error mentions [B], and the tools
    of all stores, those after [B] included, were requested in order. *)
Theorem per_index_failure_is_isolated
  (env : Env) (project_id query location : string)
  (l1 l2 l3 l4 : list string) (A B C : string)
  (toolA toolC : search_tool) (e : Exception) (w : world) :
  enumeration_outcome env project_id location
    = Returned (l1 ++ A :: l2 ++ B :: l3 ++ C :: l4) ->
  VertexAiSearchTool env A = Returned toolA ->
  VertexAiSearchTool env B = Raised e ->
  VertexAiSearchTool env C = Returned toolC ->
  let o := per_index_outcome env query in
  exists report w',
    list_and_search_all_stores env project_id query location w
      = (Returned report, w') /\
    report = str_join blank_line
               (map o l1 ++ result_snippet A query
                  :: map o l2 ++ search_error B e
                  :: map o l3 ++ result_snippet C query :: map o l4) /\
    in_that_order report
      (result_snippet A query) (search_error B e) (result_snippet C query) /\
    mentions (search_error B e) B /\
    calls w' = calls w ++ DataStoreServiceClient_call
                 :: list_data_stores_call (parent_of project_id location)
                 :: map VertexAiSearchTool_call
                      (l1 ++ A :: l2 ++ B :: l3 ++ C :: l4).
Proof.
  intros H HA HB HC o.
  assert (E : map o (l1 ++ A :: l2 ++ B :: l3 ++ C :: l4)
              = map o l1 ++ result_snippet A query
                  :: map o l2 ++ search_error B e
                  :: map o l3 ++ result_snippet C query :: map o l4).
  { rewrite !map_app; cbn [map]. rewrite !map_app; cbn [map].
    rewrite !map_app; cbn [map].
    unfold o at 2 4 6, per_index_outcome. now rewrite HA, HB, HC. }
  eexists _, _. split; [apply (run_returned env project_id query location _ w H)|].
  fold o. rewrite E. repeat split.
  - apply in_that_order_join.
  - exists "Error searching in ", (": " ++ exc_str e)%string. reflexivity.
Qed.

Lemma per_index_failure_is_isolated_witness :
  enumeration_outcome env_ABC "p" "global"
    = Returned ([] ++ "A" :: [] ++ "B" :: [] ++ "C" :: []) /\
  VertexAiSearchTool env_ABC "A" = Returned (the_tool "A") /\
  VertexAiSearchTool env_ABC "B" = Raised BadStore /\
  VertexAiSearchTool env_ABC "C" = Returned (the_tool "C") /\
  exists report w',
    list_and_search_all_stores env_ABC "p" "q" "global" empty_world
      = (Returned report, w') /\
    report = str_join blank_line
               ["Retrieved document from A related to 'q'.";
                "Error searching in B: bad store";
                "Retrieved document from C related to 'q'."] /\
    in_that_order report
      "Retrieved document from A related to 'q'."
      "Error searching in B: bad store"
      "Retrieved document from C related to 'q'." /\
    mentions "Error searching in B: bad store" "B" /\
    calls w' = [DataStoreServiceClient_call;
                list_data_stores_call (parent_of "p" "global");
                VertexAiSearchTool_call "A";
                VertexAiSearchTool_call "B";
                VertexAiSearchTool_call "C"].
Proof.
  repeat (split; [reflexivity|]).
  exact (per_index_failure_is_isolated env_ABC "p" "q" "global"
           [] [] [] [] "A" "B" "C" (the_tool "A") (the_tool "C") BadStore
           empty_world eq_refl eq_refl eq_refl eq_refl).
Defined.

(** ** No deduplication *)

Lemma count_occ_map_filter (f : string -> string) (ids : list string)
  (s : string) :
  count_occ string_dec (map f ids) s
  = List.length (filter (fun id => f id =? s) ids).
Proof.
  induction ids as [|id ids IH]; [reflexivity|].
  cbn [map filter count_occ].
  destruct (string_dec (f id) s) as [E|N].
  - rewrite (proj2 (String.eqb_eq _ _) E). cbn. now rewrite IH.
  - rewrite (proj2 (String.eqb_neq _ _) N). exact IH.
Qed.

Lemma occurs_twice_join (sep a : string) (l1 l2 l3 : list string) :
  occurs_twice (str_join sep (l1 ++ a :: l2 ++ a :: l3)) a.
Proof.
  destruct (str_join_app sep l1 (a :: l2 ++ a :: l3)) as [p1 E1];
    [discriminate|].
  destruct (str_join_app sep l2 (a :: l3)) as [p2 E2]; [discriminate|].
  destruct (str_join_head sep a l3) as [q E3].
  exists p1, (sep ++ p2)%string, q.
  rewrite E1. rewrite str_join_cons by (destruct l2; discriminate).
  rewrite E2, E3. now rewrite !append_assoc.
Qed.

(** C8.  When the enumeration yields [ids], the loop leaves a list
    [all_results] with one outcome per enumerated store: the same
    length, at every position the outcome of the store at that position
    ("Retrieved document from {id} related to '{query}'." when the tool
    is built, "Error searching in {id}: {e}" when it raises), and each
    string as many times as there are stores producing it.  The returned
    string is the AggregatedReport of that list, of the length of all
    its entries and their separators, and whenever the stores at two
    positions produce the same string, that string occurs in the
    returned string at two places that do not overlap. *)
Theorem no_deduplication
  (env : Env) (project_id query location : string) (ids : list string)
  (w : world) :
  enumeration_outcome env project_id location = Returned ids ->
  exists all_results report,
    (forall w0, fst (search_loop env query ids [] w0) = Returned all_results) /\
    fst (list_and_search_all_stores env project_id query location w)
      = Returned report /\
    report = AggregatedReport all_results /\
    String.length report
      = list_sum (map String.length all_results) + 2 * (List.length ids - 1) /\
    List.length all_results = List.length ids /\
    (forall i id, nth_error ids i = Some id ->
       nth_error all_results i = Some (per_index_outcome env query id)) /\
    (forall s, count_occ string_dec all_results s
       = List.length (filter (fun id => per_index_outcome env query id =? s)
                             ids)) /\
    (forall id tool, VertexAiSearchTool env id = Returned tool ->
       per_index_outcome env query id
       = ("Retrieved document from " ++ id ++ " related to '" ++ query
            ++ "'.")%string) /\
    (forall id e, VertexAiSearchTool env id = Raised e ->
       per_index_outcome env query id
       = ("Error searching in " ++ id ++ ": " ++ exc_str e)%string) /\
    (forall before a between b after,
       ids = before ++ a :: between ++ b :: after ->
       per_index_outcome env query a = per_index_outcome env query b ->
       occurs_twice report (per_index_outcome env query a)).
Proof.
  intros H. exists (map (per_index_outcome env query) ids),
                   (str_join blank_line (map (per_index_outcome env query) ids)).
  split; [intros w0; now rewrite search_loop_run|].
  split; [now rewrite (run_returned env project_id query location ids w H)|].
  split; [apply str_join_is_report|].
  split; [rewrite str_join_is_report, report_length; now rewrite length_map|].
  split; [apply length_map|].
  split; [intros i id Hi; now apply map_nth_error|].
  split; [intros s; apply count_occ_map_filter|].
  split; [intros id tool Ht; unfold per_index_outcome; now rewrite Ht|].
  split; [intros id e Ht; unfold per_index_outcome; now rewrite Ht|].
  intros before a between b after -> Hab.
  rewrite !map_app. cbn [map]. rewrite !map_app. cbn [map].
  rewrite <- Hab. apply occurs_twice_join.
Qed.

Lemma no_deduplication_witness :
  enumeration_outcome env_twins "p" "global" = Returned ["docs"; "docs"] /\
  exists report,
    fst (list_and_search_all_stores env_twins "p" "q" "global" empty_world)
      = Returned report /\
    report = ("Retrieved document from docs related to 'q'."
              ++ blank_line
              ++ "Retrieved document from docs related to 'q'.")%string /\
    String.length report = 90 /\
    occurs_twice report "Retrieved document from docs related to 'q'.".
Proof.
  split; [reflexivity|].
  destruct (no_deduplication env_twins "p" "q" "global" ["docs"; "docs"]
              empty_world eq_refl)
    as [all_results [report [_ [R [_ [_ [_ [_ [_ [_ [_ T]]]]]]]]]]].
  assert (E : fst (list_and_search_all_stores env_twins "p" "q" "global"
                     empty_world)
              = Returned ("Retrieved document from docs related to 'q'."
                          ++ blank_line
                          ++ "Retrieved document from docs related to 'q'.")%string)
    by reflexivity.
  exists report. split; [exact R|].
  rewrite E in R. injection R as <-.
  split; [reflexivity|]. split; [reflexivity|].
  exact (T [] "docs" [] "docs" [] eq_refl eq_refl).
Defined.

(** ** Statelessness *)

Lemma enumeration_outcome_ext (env1 env2 : Env) (project_id location : string) :
  DataStoreServiceClient env1 = DataStoreServiceClient env2 ->
  list_data_stores env1 (parent_of project_id location)
    = list_data_stores env2 (parent_of project_id location) ->
  enumeration_outcome env1 project_id location
  = enumeration_outcome env2 project_id location.
Proof.
  intros Hc Hl. unfold enumeration_outcome, enumerate, bind, respond.
  now rewrite Hc, Hl.
Qed.

(** The value a call returns, from any world. *)
Lemma run_value (env : Env) (project_id query location : string) :
  exists report, forall w, exists w',
    list_and_search_all_stores env project_id query location w
    = (Returned report, w').
Proof.
  destruct (enumeration_outcome env project_id location) as [ids|e] eqn:H.
  - exists (str_join blank_line (map (per_index_outcome env query) ids)).
    intros w. exists (world_after_search project_id location ids w).
    now apply run_returned.
  - apply enumeration_outcome_raised in H.
    exists (enumeration_error e). intros w.
    destruct (run_when_enumeration_fails env project_id query location e w H)
      as [w' [R _]].
    now exists w'.
Qed.

(** C6.  Two calls with the same project id, query and location return
    the same string whenever the services answer alike the requests the
    call makes (building the client, listing under the project's parent,
    building the tool of each enumerated store), whatever was printed or
    called before either of them; in particular the second of two calls
    in a row returns what the first returned. *)
Theorem identical_responses_identical_report
  (env1 env2 : Env) (project_id query location : string) (w1 w2 : world) :
  DataStoreServiceClient env1 = DataStoreServiceClient env2 ->
  list_data_stores env1 (parent_of project_id location)
    = list_data_stores env2 (parent_of project_id location) ->
  (forall ids id,
     enumeration_outcome env1 project_id location = Returned ids ->
     In id ids ->
     VertexAiSearchTool env1 id = VertexAiSearchTool env2 id) ->
  fst (list_and_search_all_stores env1 project_id query location w1)
    = fst (list_and_search_all_stores env2 project_id query location w2) /\
  exists report w',
    call_twice env1 project_id query location w1
    = (Returned (report, report), w').
Proof.
  intros Hc Hl Ht. split.
  - pose proof (enumeration_outcome_ext env1 env2 project_id location Hc Hl)
      as E.
    destruct (enumeration_outcome env1 project_id location) as [ids|e] eqn:H1.
    + rewrite (run_returned env1 project_id query location ids w1 H1).
      rewrite (run_returned env2 project_id query location ids w2)
        by now symmetry.
      cbn [fst]. do 2 f_equal. apply map_ext_in. intros id Hin.
      unfold per_index_outcome. now rewrite (Ht ids id eq_refl Hin).
    + assert (H2 : enumeration_outcome env2 project_id location = Raised e)
        by now symmetry.
      apply enumeration_outcome_raised in H1, H2.
      destruct (run_when_enumeration_fails env1 project_id query location
                  e w1 H1) as [w1' [-> _]].
      destruct (run_when_enumeration_fails env2 project_id query location
                  e w2 H2) as [w2' [-> _]].
      reflexivity.
  - destruct (run_value env1 project_id query location) as [report R].
    destruct (R w1) as [wa Ra]. destruct (R wa) as [wb Rb].
    exists report, wb. unfold call_twice, bind, ret. now rewrite Ra, Rb.
Qed.

Lemma identical_responses_identical_report_witness :
  DataStoreServiceClient env_single
    = DataStoreServiceClient env_single_elsewhere /\
  list_data_stores env_single (parent_of "p" "global")
    = list_data_stores env_single_elsewhere (parent_of "p" "global") /\
  VertexAiSearchTool env_single "s"
    = VertexAiSearchTool env_single_elsewhere "s" /\
  VertexAiSearchTool env_single "t"
    <> VertexAiSearchTool env_single_elsewhere "t" /\
  fst (list_and_search_all_stores env_single "p" "q" "global" empty_world)
    = fst (list_and_search_all_stores env_single_elsewhere "p" "q" "global"
             (mkWorld ["earlier output"] [VertexAiSearchTool_call "t"])) /\
  exists report w',
    call_twice env_single "p" "q" "global" empty_world
    = (Returned (report, report), w').
Proof.
  split; [reflexivity|]. split; [reflexivity|]. split; [reflexivity|].
  split; [discriminate|].
  apply (identical_responses_identical_report env_single env_single_elsewhere
           "p" "q" "global" empty_world
           (mkWorld ["earlier output"] [VertexAiSearchTool_call "t"])).
  - reflexivity.
  - reflexivity.
  - intros ids id H Hin.
    assert (E : ids = ["s"]) by (vm_compute in H; congruence).
    subst ids. destruct Hin as [<-|[]]. reflexivity.
Defined.

(** ** Store identifiers *)

Lemma after_last_slash_no_slash (id cur : string) :
  contains_char slash id = false ->
  after_last_slash id cur = (cur ++ id)%string.
Proof.
  revert cur; induction id as [|c id IH]; intros cur H; cbn [after_last_slash].
  - now rewrite append_empty_r.
  - cbn [contains_char] in H. apply orb_false_elim in H as [Hc Hid].
    rewrite Hc, IH by assumption. now rewrite append_assoc.
Qed.

Lemma after_last_slash_append (before id cur : string) :
  contains_char slash id = false ->
  after_last_slash (before ++ String slash id) cur = id.
Proof.
  intros H. revert cur; induction before as [|c b IH]; intros cur.
  - cbn. now rewrite after_last_slash_no_slash.
  - cbn [append after_last_slash]. destruct (Ascii.eqb c slash); apply IH.
Qed.

(** The final segment of a name is unique: it is [last_segment]. *)
Lemma final_segment_unique (name id : string) :
  is_final_segment name id <-> id = last_segment name.
Proof.
  split.
  - intros [Hno [->|[before ->]]]; unfold last_segment.
    + now rewrite after_last_slash_no_slash.
    + now rewrite after_last_slash_append.
  - intros ->. apply last_segment_is_final.
Qed.

(** C10.  When the directory service lists the resource names [names],
    the identifiers the function works with are, name by name, the final
    '/'-separated segments: each has no slash and is the whole name only
    if the name has none, otherwise what follows the name's last slash.
    These identifiers, and not the names, are what the tools are
    requested for, what the progress lines show, and what the snippets
    and inline errors of the report are built from. *)
Theorem store_ids_are_final_segments
  (env : Env) (project_id query location : string) (names : list string)
  (w : world) :
  enumeration_lists env project_id location names ->
  exists ids w',
    Forall2 is_final_segment names ids /\
    Forall2 (fun name id => contains_char slash name = true -> id <> name)
            names ids /\
    enumeration_outcome env project_id location = Returned ids /\
    list_and_search_all_stores env project_id query location w
      = (Returned (str_join blank_line
                     (map (per_index_outcome env query) ids)), w') /\
    calls w' = calls w ++ DataStoreServiceClient_call
                 :: list_data_stores_call (parent_of project_id location)
                 :: map VertexAiSearchTool_call ids /\
    stdout w' = stdout w ++ starting_line project_id
                  :: found_line (List.length ids) :: map searching_line ids.
Proof.
  intros L.
  assert (H : enumeration_outcome env project_id location
              = Returned (map last_segment names)).
  { unfold enumeration_outcome.
    now rewrite (enumerate_lists env project_id location names). }
  exists (map last_segment names),
         (world_after_search project_id location (map last_segment names) w).
  repeat split.
  - clear. induction names as [|n names IH]; constructor;
      [apply last_segment_is_final | exact IH].
  - clear. induction names as [|n names IH]; constructor; [|exact IH].
    intros Hn E. destruct (last_segment_is_final n) as [Hno _].
    rewrite E in Hno. congruence.
  - exact H.
  - now apply run_returned.
Qed.

Lemma store_ids_are_final_segments_witness :
  enumeration_lists env_twins "p" "global"
    ["projects/p/collections/c1/dataStores/docs";
     "projects/p/collections/c2/dataStores/docs"] /\
  exists ids w',
    Forall2 is_final_segment
      ["projects/p/collections/c1/dataStores/docs";
       "projects/p/collections/c2/dataStores/docs"] ids /\
    Forall2 (fun name id => contains_char slash name = true -> id <> name)
      ["projects/p/collections/c1/dataStores/docs";
       "projects/p/collections/c2/dataStores/docs"] ids /\
    enumeration_outcome env_twins "p" "global" = Returned ids /\
    list_and_search_all_stores env_twins "p" "q" "global" empty_world
      = (Returned (str_join blank_line
                     (map (per_index_outcome env_twins "q") ids)), w') /\
    calls w' = calls empty_world ++ DataStoreServiceClient_call
                 :: list_data_stores_call (parent_of "p" "global")
                 :: map VertexAiSearchTool_call ids /\
    stdout w' = stdout empty_world ++ starting_line "p"
                  :: found_line (List.length ids) :: map searching_line ids.
Proof.
  assert (L : enumeration_lists env_twins "p" "global"
                ["projects/p/collections/c1/dataStores/docs";
                 "projects/p/collections/c2/dataStores/docs"])
    by (split; reflexivity).
  split; [exact L|].
  exact (store_ids_are_final_segments env_twins "p" "q" "global" _
           empty_world L).
Defined.

(** ** Splitting the report on blank lines *)

Lemma prefix_blank_line_true (rest : string) :
  String.prefix blank_line (String newline (String newline rest)) = true.
Proof.
  unfold blank_line. rewrite !prefix_cons.
  destruct (ascii_dec newline newline) as [_|N]; [|contradiction].
  apply prefix_empty.
Qed.

Lemma prefix_blank_line_false (c : ascii) (x tail : string) :
  closed_segment (String c x) ->
  String.prefix blank_line (String c (x ++ tail)) = false.
Proof.
  unfold closed_segment, blank_line. cbn [append no_blank_line].
  intros H. apply andb_true_iff in H as [H _]. rewrite prefix_cons.
  destruct (ascii_dec newline c) as [<-|N]; [|reflexivity].
  rewrite Ascii.eqb_refl in H. cbn [andb] in H.
  destruct x as [|d x]; cbn [append] in *.
  - rewrite Ascii.eqb_refl in H. discriminate.
  - rewrite prefix_cons. destruct (ascii_dec newline d) as [<-|N']; [|reflexivity].
    rewrite Ascii.eqb_refl in H. discriminate.
Qed.

Lemma closed_segment_tail (c : ascii) (x : string) :
  closed_segment (String c x) -> closed_segment x.
Proof.
  unfold closed_segment. cbn [append no_blank_line].
  intros H. now apply andb_true_iff in H as [_ H].
Qed.

Lemma split_scan_segment (x rest cur : string) :
  closed_segment x ->
  split_scan blank_line (x ++ blank_line ++ rest) 0 cur
  = (cur ++ x)%string :: split_scan blank_line rest 0 "".
Proof.
  revert cur; induction x as [|c x IH]; intros cur Hx.
  - rewrite append_empty_r.
    change (split_scan blank_line (String newline (String newline rest)) 0 cur
            = cur :: split_scan blank_line rest 0 "").
    cbn [split_scan]. now rewrite prefix_blank_line_true.
  - cbn [append split_scan].
    rewrite (prefix_blank_line_false c x (blank_line ++ rest) Hx).
    rewrite IH by exact (closed_segment_tail c x Hx).
    now rewrite append_assoc.
Qed.

Lemma split_scan_last_segment (x cur : string) :
  closed_segment x ->
  split_scan blank_line x 0 cur = [(cur ++ x)%string].
Proof.
  revert cur; induction x as [|c x IH]; intros cur Hx.
  - now rewrite append_empty_r.
  - cbn [split_scan].
    pose proof (prefix_blank_line_false c x "" Hx) as P.
    rewrite append_empty_r in P. rewrite P.
    rewrite IH by exact (closed_segment_tail c x Hx).
    now rewrite append_assoc.
Qed.

Lemma split_scan_join (parts : list string) :
  parts <> [] -> Forall closed_segment parts ->
  split_scan blank_line (str_join blank_line parts) 0 "" = parts.
Proof.
  induction parts as [|x rest IH]; [contradiction|].
  intros _ H. inversion H as [|? ? Hx Hrest]; subst.
  destruct rest as [|y rest].
  - cbn [str_join String.concat]. now rewrite split_scan_last_segment.
  - rewrite str_join_cons by discriminate.
    rewrite split_scan_segment by assumption.
    rewrite IH by (discriminate || assumption). reflexivity.
Qed.

Lemma no_blank_line_append (a : string) (c : ascii) (b : string) :
  no_blank_line a = true -> Ascii.eqb c newline = false ->
  no_blank_line (String c b) = true ->
  no_blank_line (a ++ String c b) = true.
Proof.
  intros Ha Hc Hb. induction a as [|x a IH]; [exact Hb|].
  cbn [append]. cbn [no_blank_line] in Ha |- *.
  apply andb_true_iff in Ha as [Hx Ha].
  rewrite (IH Ha), andb_true_r.
  destruct a as [|d a]; cbn [append]; [|exact Hx].
  now rewrite Hc, andb_false_r.
Qed.

Lemma result_snippet_closed (store_id query : string) :
  no_blank_line store_id = true -> no_blank_line query = true ->
  closed_segment (result_snippet store_id query).
Proof.
  intros Hid Hq. unfold closed_segment, result_snippet.
  rewrite !append_assoc.
  change (no_blank_line (store_id ++ String " " ("related to '" ++ query
            ++ String "'" (String "." (String newline "")))) = true).
  apply no_blank_line_append; [assumption|reflexivity|].
  change (no_blank_line (query
            ++ String "'" (String "." (String newline ""))) = true).
  now apply no_blank_line_append.
Qed.

Lemma snippets_are_segments (query : string) (ids : list string) :
  no_blank_line query = true ->
  Forall (fun id => no_blank_line id = true) ids ->
  blank_line_segments
    (str_join blank_line (map (fun id => result_snippet id query) ids))
  = map (fun id => result_snippet id query) ids.
Proof.
  intros Hq Hids. unfold blank_line_segments.
  destruct ids as [|id ids]; [reflexivity|].
  rewrite split_scan_join.
  - apply forallb_filter_id. apply forallb_forall.
    intros s Hs. apply in_map_iff in Hs as [i [<- _]]. reflexivity.
  - discriminate.
  - apply Forall_map. revert Hids. apply Forall_impl.
    intros i Hi. now apply result_snippet_closed.
Qed.

(** C5, as the code has it.  When the enumeration yields [ids], every
    tool is built, and neither the query nor any identifier contains two
    consecutive line feeds, the report split on blank lines has exactly
    one non-empty segment per store: the snippets of [ids], in
    enumeration order. *)
Theorem segments_when_no_blank_line_inside
  (env : Env) (project_id query location : string) (ids : list string)
  (w : world) :
  enumeration_outcome env project_id location = Returned ids ->
  (forall id, In id ids ->
     exists tool, VertexAiSearchTool env id = Returned tool) ->
  no_blank_line query = true ->
  Forall (fun id => no_blank_line id = true) ids ->
  exists report,
    fst (list_and_search_all_stores env project_id query location w)
      = Returned report /\
    blank_line_segments report
      = map (fun id => result_snippet id query) ids /\
    List.length (blank_line_segments report) = List.length ids.
Proof.
  intros H Hok Hq Hids.
  assert (E : map (per_index_outcome env query) ids
              = map (fun id => result_snippet id query) ids).
  { apply map_ext_in. intros id Hin. destruct (Hok id Hin) as [tool Ht].
    unfold per_index_outcome. now rewrite Ht. }
  exists (str_join blank_line (map (fun id => result_snippet id query) ids)).
  rewrite (run_returned env project_id query location ids w H), E.
  rewrite snippets_are_segments by assumption.
  repeat split. apply length_map.
Qed.

Lemma segments_when_no_blank_line_inside_witness :
  enumeration_outcome env_ABC_ok "p" "global" = Returned ["A"; "B"; "C"] /\
  no_blank_line "q" = true /\
  Forall (fun id => no_blank_line id = true) ["A"; "B"; "C"] /\
  exists report,
    fst (list_and_search_all_stores env_ABC_ok "p" "q" "global" empty_world)
      = Returned report /\
    blank_line_segments report
      = ["Retrieved document from A related to 'q'.";
         "Retrieved document from B related to 'q'.";
         "Retrieved document from C related to 'q'."] /\
    List.length (blank_line_segments report) = 3.
Proof.
  split; [reflexivity|]. split; [reflexivity|].
  split; [repeat constructor|].
  apply (segments_when_no_blank_line_inside env_ABC_ok "p" "q" "global"
           ["A"; "B"; "C"] empty_world).
  - reflexivity.
  - intros id _. now exists (mkSearchTool "ready").
  - reflexivity.
  - repeat constructor.
Defined.

(** C5, as stated, fails: one store whose tool is built and a query of
    two paragraphs give a report of two non-empty segments. *)
Lemma blank_line_in_query_adds_a_segment :
  ~ (forall (env : Env) (project_id query location : string)
            (ids : list string) (w : world),
       enumeration_outcome env project_id location = Returned ids ->
       (forall id, In id ids ->
          exists tool, VertexAiSearchTool env id = Returned tool) ->
       exists report,
         fst (list_and_search_all_stores env project_id query location w)
           = Returned report /\
         List.length (blank_line_segments report) = List.length ids).
Proof.
  intros claim.
  destruct (claim env_single "p" two_paragraphs "global" ["s"] empty_world)
    as [report [R N]].
  - reflexivity.
  - intros id _. now exists (the_tool id).
  - vm_compute in R. injection R as <-. vm_compute in N. discriminate.
Qed.

(** ** Telling the two kinds of return apart *)

Lemma outcome_not_error_prefixed (env : Env) (query id tail : string) :
  String.prefix "Error: " (per_index_outcome env query id ++ tail) = false.
Proof.
  unfold per_index_outcome.
  destruct (VertexAiSearchTool env id); reflexivity.
Qed.

Lemma outcome_append_not_empty (env : Env) (query id tail : string) :
  (per_index_outcome env query id ++ tail)%string <> "".
Proof.
  unfold per_index_outcome.
  destruct (VertexAiSearchTool env id); discriminate.
Qed.

(** X1.  The string a call returns starts with "Error: " exactly when
    the enumeration failed: a report of per-store outcomes, inline
    errors included, never starts that way. *)
Theorem fatal_error_is_recognisable
  (env : Env) (project_id query location : string) (w : world) :
  exists report w',
    list_and_search_all_stores env project_id query location w
      = (Returned report, w') /\
    (String.prefix "Error: " report = true <->
     exists e, enumeration_outcome env project_id location = Raised e).
Proof.
  destruct (enumeration_outcome env project_id location) as [ids|e] eqn:H.
  - exists (str_join blank_line (map (per_index_outcome env query) ids)),
           (world_after_search project_id location ids w).
    split; [now apply run_returned|].
    split; [|intros [e He]; discriminate].
    intros P. exfalso. destruct ids as [|id ids]; [discriminate|].
    cbn [map] in P.
    destruct (str_join_head blank_line (per_index_outcome env query id)
                (map (per_index_outcome env query) ids)) as [q E].
    rewrite E, outcome_not_error_prefixed in P. discriminate.
  - apply enumeration_outcome_raised in H.
    destruct (run_when_enumeration_fails env project_id query location e w H)
      as [w' [R _]].
    exists (enumeration_error e), w'. split; [assumption|].
    split; [intros _; now exists e | reflexivity].
Qed.

(** X2.  A call returns the empty string exactly when the enumeration
    succeeded and listed no data store; every store, whether its tool is
    built or raises, leaves text in the report. *)
Theorem empty_report_iff_no_store
  (env : Env) (project_id query location : string) (w : world) :
  exists report w',
    list_and_search_all_stores env project_id query location w
      = (Returned report, w') /\
    (report = "" <->
     enumeration_outcome env project_id location = Returned []).
Proof.
  destruct (enumeration_outcome env project_id location) as [ids|e] eqn:H.
  - exists (str_join blank_line (map (per_index_outcome env query) ids)),
           (world_after_search project_id location ids w).
    split; [now apply run_returned|].
    destruct ids as [|id ids]; [now split|].
    split; [|discriminate].
    intros E. exfalso. cbn [map] in E.
    destruct (str_join_head blank_line (per_index_outcome env query id)
                (map (per_index_outcome env query) ids)) as [q Eq].
    rewrite Eq in E. now apply outcome_append_not_empty in E.
  - apply enumeration_outcome_raised in H.
    destruct (run_when_enumeration_fails env project_id query location e w H)
      as [w' [R _]].
    exists (enumeration_error e), w'. split; [assumption|].
    split; discriminate.
Qed.

(** ** What the query reaches *)

(** X3.  The query reaches no external service and no progress line:
    two calls that differ only in the query leave the same printed lines
    and the same external calls behind. *)
Theorem query_reaches_no_service
  (env : Env) (project_id location query1 query2 : string) (w : world) :
  snd (list_and_search_all_stores env project_id query1 location w)
  = snd (list_and_search_all_stores env project_id query2 location w).
Proof.
  unfold list_and_search_all_stores, bind, try_except, print, ret.
  destruct (enumerate env project_id location _) as [[ids|e] w1];
    [|reflexivity].
  now rewrite !search_loop_run.
Qed.

(** ** The external calls of a run *)

(** X4.  The external calls of a run are, in order: the client
    constructor alone when it raises; the constructor and one listing
    request under the project's parent path when the listing fails,
    at the request or at a later page; otherwise these two followed by
    one tool constructor per enumerated store, in enumeration order. *)
Theorem calls_of_a_run
  (env : Env) (project_id query location : string) (w : world) :
  let w' := snd (list_and_search_all_stores env project_id query location w) in
  let parent := ("projects/" ++ project_id ++ "/locations/" ++ location
                   ++ "/collections/default_collection")%string in
  (exists e, DataStoreServiceClient env = Raised e /\
             calls w' = calls w ++ [DataStoreServiceClient_call]) \/
  (exists e, DataStoreServiceClient env = Returned tt /\
             enumeration_outcome env project_id location = Raised e /\
             calls w' = calls w ++ [DataStoreServiceClient_call;
                                    list_data_stores_call parent]) \/
  (exists ids, enumeration_outcome env project_id location = Returned ids /\
               calls w' = calls w ++ DataStoreServiceClient_call
                            :: list_data_stores_call parent
                            :: map VertexAiSearchTool_call ids).
Proof.
  intros w' parent. fold (parent_of project_id location) in parent.
  destruct (enumeration_outcome env project_id location) as [ids|e] eqn:H.
  - right. right. exists ids. split; [reflexivity|]. subst w'.
    now rewrite (run_returned env project_id query location ids w H).
  - subst w'. unfold enumeration_outcome in H.
    unfold list_and_search_all_stores, bind at 1, try_except, print, ret.
    unfold enumerate, bind, record_call, respond in H |- *.
    cbn [stdout calls] in H |- *.
    destruct (DataStoreServiceClient env) as [[]|e1] eqn:Hc.
    + right. left. exists e. split; [reflexivity|]. split; [reflexivity|].
      fold parent in H |- *.
      destruct (list_data_stores env parent) as [p|e2] eqn:Hl.
      * destruct (pager_shape p) as [[names ->]|[names [e3 ->]]].
        -- rewrite collect_ids_names in H. discriminate.
        -- rewrite collect_ids_failing. cbn. now rewrite <- app_assoc.
      * cbn. now rewrite <- app_assoc.
    + left. exists e1. split; reflexivity.
Qed.

(** ** The loop on a list in two parts *)

(** X5.  Searching the stores [ids1 ++ ids2] is searching [ids1] and
    then [ids2] on the list the first part left: the loop only appends,
    and what [all_results] held before stays in front. *)
Theorem search_loop_app
  (env : Env) (query : string) (ids1 ids2 all_results : list string)
  (w : world) :
  search_loop env query (ids1 ++ ids2) all_results w
  = bind (search_loop env query ids1 all_results)
         (fun results1 => search_loop env query ids2 results1) w /\
  exists appended,
    fst (search_loop env query (ids1 ++ ids2) all_results w)
      = Returned (all_results ++ appended) /\
    List.length appended = List.length ids1 + List.length ids2.
Proof.
  split.
  - revert all_results w.
    induction ids1 as [|id ids1 IH]; intros all_results w; [reflexivity|].
    cbn [app search_loop]. unfold bind.
    destruct (search_store env query id all_results w) as [[r|e] w1];
      [|reflexivity].
    rewrite IH. reflexivity.
  - exists (map (per_index_outcome env query) (ids1 ++ ids2)).
    rewrite search_loop_run. split; [reflexivity|].
    now rewrite length_map, length_app.
Qed.

(** ** Splitting a report that holds inline errors *)

Lemma search_error_closed (store_id : string) (e : Exception) :
  no_blank_line store_id = true -> closed_segment (exc_str e) ->
  closed_segment (search_error store_id e).
Proof.
  intros Hid He. unfold closed_segment, search_error in *.
  rewrite !append_assoc.
  change (no_blank_line (store_id ++ String ":" (" " ++ exc_str e
            ++ String newline "")) = true).
  apply no_blank_line_append; [assumption|reflexivity|exact He].
Qed.

Lemma closed_parts_are_segments (parts : list string) :
  Forall closed_segment parts ->
  Forall (fun part => part <> "") parts ->
  blank_line_segments (str_join blank_line parts) = parts.
Proof.
  intros Hc Hn. unfold blank_line_segments.
  destruct parts as [|x rest]; [reflexivity|].
  rewrite split_scan_join by (discriminate || assumption).
  apply forallb_filter_id. apply forallb_forall. intros part Hin.
  rewrite Forall_forall in Hn. specialize (Hn part Hin).
  now destruct part.
Qed.

(** X6.  When the enumeration yields [ids], the query and the
    identifiers hold no two consecutive line feeds, and the text of
    every exception a tool raises holds none and does not end in a line
    feed, the report split on blank lines gives back the per-store
    outcomes, snippets and inline errors alike, one per store in
    enumeration order. *)
Theorem segments_of_a_mixed_report
  (env : Env) (project_id query location : string) (ids : list string)
  (w : world) :
  enumeration_outcome env project_id location = Returned ids ->
  no_blank_line query = true ->
  Forall (fun id => no_blank_line id = true) ids ->
  (forall id e, In id ids -> VertexAiSearchTool env id = Raised e ->
     closed_segment (exc_str e)) ->
  exists report,
    fst (list_and_search_all_stores env project_id query location w)
      = Returned report /\
    blank_line_segments report = map (per_index_outcome env query) ids.
Proof.
  intros H Hq Hids He.
  exists (str_join blank_line (map (per_index_outcome env query) ids)).
  rewrite (run_returned env project_id query location ids w H).
  split; [reflexivity|].
  rewrite Forall_forall in Hids.
  apply closed_parts_are_segments; apply Forall_forall; intros o Ho;
    apply in_map_iff in Ho as [id [<- Hin]]; unfold per_index_outcome.
  - destruct (VertexAiSearchTool env id) as [t|e] eqn:Ht.
    + apply result_snippet_closed; [now apply Hids | assumption].
    + apply search_error_closed; [now apply Hids | now apply (He id)].
  - destruct (VertexAiSearchTool env id); discriminate.
Qed.

Lemma segments_of_a_mixed_report_witness :
  enumeration_outcome env_ABC "p" "global" = Returned ["A"; "B"; "C"] /\
  closed_segment (exc_str BadStore) /\
  exists report,
    fst (list_and_search_all_stores env_ABC "p" "q" "global" empty_world)
      = Returned report /\
    blank_line_segments report
      = ["Retrieved document from A related to 'q'.";
         "Error searching in B: bad store";
         "Retrieved document from C related to 'q'."].
Proof.
  split; [reflexivity|]. split; [reflexivity|].
  apply (segments_of_a_mixed_report env_ABC "p" "q" "global"
           ["A"; "B"; "C"] empty_world).
  - reflexivity.
  - reflexivity.
  - repeat constructor.
  - intros id e _ He. cbn in He.
    destruct (id =? "B"); [|discriminate].
    injection He as <-. reflexivity.
Defined.

(** ** A resource name without a last segment *)

(** X7.  A listed resource name that is empty or ends in a slash is not
    skipped: its identifier is the empty string, for which the function
    prints a progress line and requests a tool like for any other. *)
Theorem empty_identifier_is_searched
  (env : Env) (project_id query location : string) (names : list string)
  (name : string) (w : world) :
  enumeration_lists env project_id location names ->
  In name names ->
  name = "" \/ (exists before, name = (before ++ "/")%string) ->
  let w' := snd (list_and_search_all_stores env project_id query location w) in
  In (VertexAiSearchTool_call "") (calls w') /\
  In (searching_line "") (stdout w') /\
  exists ids, enumeration_outcome env project_id location = Returned ids /\
              In "" ids.
Proof.
  intros L Hin Hname w'.
  assert (E : last_segment name = "").
  { symmetry. apply final_segment_unique. split; [reflexivity|].
    destruct Hname as [->|[before ->]]; [now left | right; now exists before]. }
  assert (I : In "" (map last_segment names))
    by (rewrite <- E; now apply in_map).
  subst w'.
  rewrite (run_when_enumeration_lists env project_id query location names w L).
  cbn [snd stdout calls]. repeat split.
  - apply in_or_app. right. right. right. now apply in_map.
  - apply in_or_app. right. right. right.
    now apply (in_map searching_line) in I.
  - exists (map last_segment names). split; [|assumption].
    unfold enumeration_outcome.
    now rewrite (enumerate_lists env project_id location names).
Qed.

Lemma empty_identifier_is_searched_witness :
  enumeration_lists env_trailing_slash "p" "global" ["projects/p/dataStores/"] /\
  In (VertexAiSearchTool_call "")
     (calls (snd (list_and_search_all_stores env_trailing_slash "p" "q"
                    "global" empty_world))).
Proof.
  assert (L : enumeration_lists env_trailing_slash "p" "global"
                ["projects/p/dataStores/"]) by (split; reflexivity).
  split; [exact L|].
  assert (I : In "projects/p/dataStores/" ["projects/p/dataStores/"])
    by now left.
  assert (S : "projects/p/dataStores/" = ""
              \/ exists before,
                   "projects/p/dataStores/" = (before ++ "/")%string)
    by (right; now exists "projects/p/dataStores").
  exact (proj1 (empty_identifier_is_searched env_trailing_slash "p" "q"
                  "global" ["projects/p/dataStores/"]
                  "projects/p/dataStores/" empty_world L I S)).
Defined.

(** ** The script *)

Lemma print_event_run (ev : event) (w : world) :
  printable ev = true ->
  print_event ev w
  = (Returned tt, mkWorld (stdout w ++ report_lines ev) (calls w)).
Proof.
  unfold printable, print_event, report_lines.
  destruct (is_final_response ev); cbn [negb orb].
  - destruct (parts ev) as [|text others]; [discriminate|]. intros _.
    unfold bind, print, index_first, ret. cbn [stdout calls firstn].
    now rewrite <- app_assoc.
  - intros _. unfold ret. rewrite app_nil_r. now destruct w.
Qed.

Lemma print_event_hollow (ev : event) (w : world) :
  printable ev = false ->
  print_event ev w
  = (Raised (mkException "IndexError" "list index out of range"),
     mkWorld (stdout w ++ [final_report_line]) (calls w)).
Proof.
  unfold printable, print_event.
  destruct (is_final_response ev); cbn [negb orb]; [|discriminate].
  destruct (parts ev); [reflexivity|discriminate].
Qed.

Lemma print_final_responses_run (events : event_stream) (w : world) :
  stream_printable events = true ->
  print_final_responses events w
  = (Returned tt,
     mkWorld (stdout w ++ flat_map report_lines (events_of events)) (calls w)).
Proof.
  revert w; induction events as [|ev rest IH|e]; intros w H.
  - cbn. rewrite app_nil_r. now destruct w.
  - cbn [stream_printable] in H. apply andb_true_iff in H as [Hev Hrest].
    cbn [print_final_responses events_of flat_map]. unfold bind.
    rewrite print_event_run, IH by assumption.
    cbn [stdout calls]. now rewrite <- app_assoc.
  - discriminate.
Qed.

Lemma print_final_responses_stops (evs : list event) (ev : event)
  (rest : event_stream) (w : world) :
  forallb printable evs = true -> printable ev = false ->
  print_final_responses (events_then evs (EventsYield ev rest)) w
  = (Raised (mkException "IndexError" "list index out of range"),
     mkWorld (stdout w ++ flat_map report_lines evs ++ [final_report_line])
             (calls w)).
Proof.
  revert w; induction evs as [|ev0 evs IH]; intros w Hevs Hev.
  - cbn [events_then fold_right print_final_responses flat_map app].
    unfold bind. now rewrite print_event_hollow.
  - cbn [forallb] in Hevs. apply andb_true_iff in Hevs as [H0 Hevs].
    cbn [events_then fold_right print_final_responses flat_map].
    unfold bind. rewrite print_event_run by assumption.
    fold (events_then evs (EventsYield ev rest)).
    rewrite IH by assumption. cbn [stdout calls]. now rewrite <- !app_assoc.
Qed.

Lemma print_final_responses_raises (events : event_stream) (w : world) :
  stream_printable events = false ->
  exists e w', print_final_responses events w = (Raised e, w').
Proof.
  revert w; induction events as [|ev rest IH|e]; intros w H.
  - discriminate.
  - cbn [print_final_responses]. unfold bind.
    destruct (printable ev) eqn:Hev.
    + rewrite print_event_run by assumption. apply IH.
      cbn [stream_printable] in H. now rewrite Hev in H.
    + rewrite print_event_hollow by assumption. now eexists _, _.
  - now exists e, w.
Qed.

(** X8.  With the project variable set to a non-empty value, the runner
    built and a stream of events that ends normally and whose final
    responses each have a first part, the script ends normally having
    printed the two opening lines, the two closing lines and then, for
    each final response in the order of the stream, the report title and
    the text of its first part; other events and further parts print
    nothing. *)
Theorem main_prints_final_responses
  (host : Host) (c : ascii) (project : string) (events : event_stream)
  (w : world) :
  GOOGLE_CLOUD_PROJECT host = Some (String c project) ->
  InMemoryRunner host = Returned tt ->
  runner_run host (String c project) initial_message = Returned events ->
  stream_printable events = true ->
  main host w
  = (Returned tt,
     mkWorld (stdout w ++ workflow_start_lines ++ workflow_complete_lines
                ++ flat_map report_lines (events_of events))
             (calls w)).
Proof.
  intros Hp Hr He Hs. unfold main. rewrite Hp.
  unfold bind, respond, print. rewrite Hr, He. cbn [stdout calls].
  rewrite print_final_responses_run by assumption.
  cbn [stdout calls]. unfold workflow_start_lines, workflow_complete_lines.
  now rewrite <- !app_assoc.
Qed.

Lemma main_prints_final_responses_witness :
  stream_printable (events_then [draft; answer] EventsEnd) = true /\
  main host_ok empty_world
  = (Returned tt,
     mkWorld (workflow_start_lines ++ workflow_complete_lines
                ++ [final_report_line; "the report"])
             []).
Proof.
  split; [reflexivity|].
  exact (main_prints_final_responses host_ok "p" "" _ empty_world
           eq_refl eq_refl eq_refl eq_refl).
Defined.

(** X9.  A final response without parts stops the script: the events
    before it are printed as usual, the report title of the failing
    event is printed, then [IndexError] leaves the script uncaught and
    no later event is printed. *)
Theorem main_stops_at_final_response_without_parts
  (host : Host) (c : ascii) (project : string) (evs : list event)
  (ev : event) (rest : event_stream) (w : world) :
  GOOGLE_CLOUD_PROJECT host = Some (String c project) ->
  InMemoryRunner host = Returned tt ->
  runner_run host (String c project) initial_message
    = Returned (events_then evs (EventsYield ev rest)) ->
  forallb printable evs = true ->
  is_final_response ev = true ->
  parts ev = [] ->
  main host w
  = (Raised (mkException "IndexError" "list index out of range"),
     mkWorld (stdout w ++ workflow_start_lines ++ workflow_complete_lines
                ++ flat_map report_lines evs ++ [final_report_line])
             (calls w)).
Proof.
  intros Hp Hr He Hevs Hfinal Hparts. unfold main. rewrite Hp.
  unfold bind, respond, print. rewrite Hr, He. cbn [stdout calls].
  rewrite print_final_responses_stops;
    [|assumption|unfold printable; now rewrite Hfinal, Hparts].
  cbn [stdout calls]. unfold workflow_start_lines, workflow_complete_lines.
  now rewrite <- !app_assoc.
Qed.

Lemma main_stops_at_final_response_without_parts_witness :
  forallb printable [draft; answer] = true /\
  main host_hollow empty_world
  = (Raised (mkException "IndexError" "list index out of range"),
     mkWorld (workflow_start_lines ++ workflow_complete_lines
                ++ [final_report_line; "the report"; final_report_line])
             []).
Proof.
  split; [reflexivity|].
  exact (main_stops_at_final_response_without_parts host_hollow "p" ""
           [draft; answer] hollow (EventsYield answer EventsEnd) empty_world
           eq_refl eq_refl eq_refl eq_refl eq_refl eq_refl).
Defined.

(** X10.  The script ends normally exactly when the project variable is
    unset or empty, or the runner is built, [run] returns a stream that
    ends without failing, and every final response in it has a first
    part; in every other case an exception leaves the script. *)
Theorem main_ends_normally_iff (host : Host) (w : world) :
  fst (main host w) = Returned tt <->
  project_missing host \/
  (exists project events,
     GOOGLE_CLOUD_PROJECT host = Some project /\
     InMemoryRunner host = Returned tt /\
     runner_run host project initial_message = Returned events /\
     stream_printable events = true).
Proof.
  unfold project_missing, main.
  destruct (GOOGLE_CLOUD_PROJECT host) as [[|c project]|] eqn:Hp.
  - split; [intros _; left; now right | reflexivity].
  - unfold bind, respond, print. cbn [stdout calls].
    destruct (InMemoryRunner host) as [[]|e1] eqn:Hr.
    + destruct (runner_run host (String c project) initial_message)
        as [events|e2] eqn:He.
      * destruct (stream_printable events) eqn:Hs.
        -- rewrite print_final_responses_run by assumption.
           split; [intros _; right; now exists (String c project), events
                  | reflexivity].
        -- match goal with |- fst (print_final_responses _ ?w0) = _ <-> _ =>
             destruct (print_final_responses_raises events w0 Hs)
               as [e [w' ->]]
           end.
           split; [discriminate|].
           intros [[H|H]|[p [evs [H1 [_ [H3 H4]]]]]]; try discriminate.
           injection H1 as <-. rewrite He in H3. injection H3 as <-.
           congruence.
      * split; [discriminate|].
        intros [[H|H]|[p [evs [H1 [_ [H3 _]]]]]]; try discriminate.
        injection H1 as <-. congruence.
    + split; [discriminate|].
      intros [[H|H]|[p [evs [_ [H2 _]]]]]; discriminate.
  - split; [intros _; left; now left | reflexivity].
Qed.

(** X11.  With the project variable unset or empty the script prints
    the one line asking to set it and ends normally; neither the
    runner's constructor nor [run] is consulted, whatever they would
    answer. *)
Theorem main_without_project (host : Host) (w : world) :
  project_missing host ->
  forall runner run,
    main (mkHost (GOOGLE_CLOUD_PROJECT host) runner run) w
    = (Returned tt, mkWorld (stdout w ++ [please_set_line]) (calls w)) /\
    main host w
    = (Returned tt, mkWorld (stdout w ++ [please_set_line]) (calls w)).
Proof.
  intros [H|H] runner run; unfold main; cbn [GOOGLE_CLOUD_PROJECT];
    rewrite H; split; reflexivity.
Qed.

Lemma main_without_project_witness :
  project_missing host_unset /\
  main host_unset (mkWorld ["earlier output"] [])
  = (Returned tt, mkWorld ["earlier output"; please_set_line] []).
Proof.
  split; [now left|].
  apply (main_without_project host_unset (mkWorld ["earlier output"] [])
           (or_introl eq_refl) (Raised PermissionDenied)
           (fun _ _ => Raised PermissionDenied)).
Defined.

(** ** What leaves the function, and what does not *)



Section Boundary.

Variable rt : Strict.Runtime.
Variables project_id query location : string.
Hypothesis tame : Strict.failures_are_exceptions rt project_id location.





End Boundary.




(** ** The two models on well-behaved services *)

Lemma strict_collect_ids_of_pager (p : pager) (w : world) :
  Strict.collect_ids (strict_pager_of p) w = Strict.of_py (collect_ids p) w.
Proof.
  revert w; induction p as [|name rest IH|e]; intros w;
    [reflexivity| |reflexivity].
  cbn [strict_pager_of Strict.collect_ids collect_ids].
  unfold Strict.bind, bind, Strict.of_py in *.
  rewrite store_id_of_run, IH.
  now destruct (collect_ids rest w) as [[ids|e] w'].
Qed.

Lemma strict_enumerate_of_env (env : Env) (project_id location : string)
  (w : world) :
  Strict.enumerate (runtime_of_env env) project_id location w
  = Strict.of_py (enumerate env project_id location) w.
Proof.
  unfold Strict.enumerate, enumerate, Strict.of_py, Strict.bind, bind,
    Strict.record_call, record_call, Strict.respond, respond,
    Strict.print, print, Strict.ret, ret.
  cbn [runtime_of_env Strict.DataStoreServiceClient Strict.list_data_stores
       Strict.write stdout calls].
  destruct (DataStoreServiceClient env) as [[]|e]; [|reflexivity].
  cbn [result_of_outcome].
  destruct (list_data_stores env (parent_of project_id location)) as [p|e];
    [|reflexivity].
  rewrite strict_collect_ids_of_pager. unfold Strict.of_py.
  now destruct (collect_ids p _) as [[ids|e] w'].
Qed.

Lemma strict_search_store_of_env (env : Env) (query store_id : string)
  (all_results : list string) (w : world) :
  Strict.search_store (runtime_of_env env) query store_id all_results w
  = Strict.of_py (search_store env query store_id all_results) w.
Proof.
  unfold Strict.search_store, search_store, Strict.of_py,
    Strict.try_except_Exception, try_except, Strict.bind, bind,
    Strict.print, print, Strict.record_call, record_call,
    Strict.respond, respond.
  cbn [runtime_of_env Strict.VertexAiSearchTool Strict.write stdout calls].
  now destruct (VertexAiSearchTool env store_id).
Qed.

Lemma strict_search_loop_of_env (env : Env) (query : string)
  (ids all_results : list string) (w : world) :
  Strict.search_loop (runtime_of_env env) query ids all_results w
  = Strict.of_py (search_loop env query ids all_results) w.
Proof.
  revert all_results w; induction ids as [|id ids IH]; intros all_results w;
    [reflexivity|].
  cbn [Strict.search_loop search_loop]. unfold Strict.bind, bind.
  rewrite strict_search_store_of_env. unfold Strict.of_py.
  destruct (search_store env query id all_results w) as [[r|e] w1].
  - rewrite IH. reflexivity.
  - reflexivity.
Qed.

(** X12.  On services that raise only instances of [Exception] whose
    [str] returns, with every line written, the function with all of
    Python's ways out does exactly what the function of the other
    statements does: the same returned string, the same printed lines
    and the same external calls. *)
Theorem boundary_model_agrees
  (env : Env) (project_id query location : string) (w : world) :
  Strict.list_and_search_all_stores (runtime_of_env env)
    project_id query location w
  = (result_of_outcome
       (fst (list_and_search_all_stores env project_id query location w)),
     snd (list_and_search_all_stores env project_id query location w)) /\
  Strict.failures_are_exceptions (runtime_of_env env) project_id location.
Proof.
  split.
  - unfold Strict.list_and_search_all_stores, list_and_search_all_stores,
      Strict.try_except_Exception, try_except, Strict.bind, bind,
      Strict.print, print, Strict.ret, ret, Strict.format_exception.
    cbn [runtime_of_env Strict.write].
    rewrite strict_enumerate_of_env. unfold Strict.of_py.
    destruct (enumerate env project_id location _) as [[ids|e] w1];
      [|reflexivity].
    rewrite strict_search_loop_of_env. unfold Strict.of_py.
    now destruct (search_loop env query ids [] w1) as [[r|e] w2].
  - repeat split; cbn [runtime_of_env Strict.DataStoreServiceClient
                       Strict.list_data_stores Strict.VertexAiSearchTool].
    + now destruct (DataStoreServiceClient env).
    + destruct (list_data_stores env (parent_of project_id location))
        as [p|e]; [|reflexivity].
      induction p as [|name rest IH|e]; [reflexivity|exact IH|reflexivity].
    + intros id. now destruct (VertexAiSearchTool env id).
Qed.
